(** * Coordinate-column extraction from non-standard collar files

    A shallow embedding of Stage 3 of [nwmp_collars.ipynb]: every collar
    file that is not in GGIC format is read as a tab-delimited table, its
    column names are lower-cased and de-duplicated, the numeric columns
    whose values have a median rendered length of at least 5 are taken as
    potential locations, and the table is melted into long form.

    The pandas calls of the notebook are embedded as functions on an
    explicit data-frame type (pandas 2.x behaviour); Python exceptions are
    [None] in the option monad, and the notebook's global list
    [sub_df_list] and its printed lines are threaded as an explicit state. *)

From Stdlib Require Import Bool Arith ZArith QArith Lia String Ascii.
From Stdlib Require Import DecimalString List Permutation Sorted Recdef.
Import ListNotations.
Close Scope Q_scope.
Open Scope string_scope.
Open Scope list_scope.

(** ** Python strings *)

Module PyStr.

(** [str.lower()] on one character of text decoded with the [latin]
    codec: A-Z and the accented capitals U+00C0..U+00DE (the
    multiplication sign U+00D7 apart) move up by 32. *)
Definition lower_char (c : ascii) : ascii :=
  let n := nat_of_ascii c in
  if (((65 <=? n) && (n <=? 90))
      || ((192 <=? n) && (n <=? 222) && negb (n =? 215)))%nat
  then ascii_of_nat (n + 32)
  else c.

(** [s.lower()] *)
Fixpoint lower (s : string) : string :=
  match s with
  | EmptyString => EmptyString
  | String c s' => String (lower_char c) (lower s')
  end.

(** [sub in s] *)
Fixpoint contains (sub s : string) : bool :=
  prefix sub s
  || match s with
     | EmptyString => false
     | String _ s' => contains sub s'
     end.

(** [c * n] for a one-character string [c] *)
Fixpoint repeat_char (c : ascii) (n : nat) : string :=
  match n with
  | O => EmptyString
  | S n' => String c (repeat_char c n')
  end.

(** [str(n)] for an [int] *)
Definition str_int (n : Z) : string := NilZero.string_of_int (Z.to_int n).

End PyStr.

(** ** Floating-point values and their text *)

Module PyFloat.
Import PyStr.
Local Open Scope string_scope.

(** A [float64] cell.  A finite value is given by the output of the
    shortest round-trip conversion that [repr] starts from: the sign, the
    significant decimal digits and the position of the decimal point
    (value = 0.d1d2...dn * 10^decpt; zero is the digit string "0" with
    [decpt = 1]).  451234.56 is [Finite false "45123456" 6]. *)
Inductive float64 : Type :=
| NaN
| Inf (negative : bool)
| Finite (negative : bool) (digits : string) (decpt : Z).

Definition zeros (n : Z) : string := repeat_char "0" (Z.to_nat n).

(** [sprintf("%+.02d", e)] *)
Definition format_exponent (e : Z) : string :=
  let d := NilZero.string_of_uint (N.to_uint (Z.abs_N e)) in
  (if (e <? 0)%Z then "-" else "+")
  ++ (if (String.length d <? 2)%nat then "0" ++ d else d).

Fixpoint strip_trailing_dot (s : string) : string :=
  match s with
  | EmptyString => EmptyString
  | String c EmptyString => if Ascii.eqb c "." then EmptyString else s
  | String c s' => String c (strip_trailing_dot s')
  end.

(** The layout of a finite value in [repr] style: exponent notation when
    [decpt <= -4] or [decpt > 16], a ".0" added to integral values, the
    decimal point placed inside, before or after the digit string. *)
Definition format_finite (digits : string) (decpt : Z) : string :=
  let digits_len := Z.of_nat (String.length digits) in
  let use_exp := ((decpt <=? -4) || (16 <? decpt))%Z in
  let exp := (decpt - 1)%Z in
  let decpt := if use_exp then 1%Z else decpt in
  let vdigits_start := if (decpt <=? 0)%Z then (decpt - 1)%Z else 0%Z in
  let vdigits_end :=
    if negb use_exp then Z.max digits_len (decpt + 1)
    else Z.max digits_len decpt in
  let left :=
    if (decpt <=? 0)%Z
    then zeros (decpt - vdigits_start) ++ "." ++ zeros (0 - decpt)
    else zeros (0 - vdigits_start) in
  let middle :=
    if ((0 <? decpt) && (decpt <=? digits_len))%Z
    then substring 0 (Z.to_nat decpt) digits ++ "."
         ++ substring (Z.to_nat decpt) (Z.to_nat (digits_len - decpt)) digits
    else digits in
  let right :=
    if (digits_len <? decpt)%Z
    then zeros (decpt - digits_len) ++ "." ++ zeros (vdigits_end - decpt)
    else zeros (vdigits_end - digits_len) in
  strip_trailing_dot (left ++ middle ++ right)
  ++ (if use_exp then "e" ++ format_exponent exp else "").

(** [str(x)] for a float *)
Definition str_float (x : float64) : string :=
  match x with
  | NaN => "nan"
  | Inf negative => if negative then "-inf" else "inf"
  | Finite negative digits decpt =>
      (if negative then "-" else "") ++ format_finite digits decpt
  end.

End PyFloat.

(** ** Data frames *)

Module Pandas.
Import PyStr PyFloat.

(** Exceptions: [None] is a raised exception, [x <- e ;; k] runs [k] only
    when [e] returned. *)
Notation "x <- e ;; k" :=
  (match e with Some x => k | None => None end)
  (at level 61, e at next level, right associativity).

(** One cell of a table. *)
Inductive scalar : Type :=
| SInt (n : Z)
| SFloat (x : float64)
| SBool (b : bool)
| SStr (s : string).

(** [str(v)] *)
Definition str (v : scalar) : string :=
  match v with
  | SInt n => str_int n
  | SFloat x => str_float x
  | SBool b => if b then "True" else "False"
  | SStr s => s
  end.

(** A column of data with its dtype.  A missing value is [NaN] in a
    [Float64] column and [SFloat NaN] in an [Object] column. *)
Inductive Series : Type :=
| Int64 (xs : list Z)
| Float64 (xs : list float64)
| Bool (xs : list bool)
| Object (xs : list scalar).

Definition values (s : Series) : list scalar :=
  match s with
  | Int64 xs => map SInt xs
  | Float64 xs => map SFloat xs
  | Bool xs => map SBool xs
  | Object xs => xs
  end.

Definition size (s : Series) : nat := length (values s).

(** dtype is a subtype of [np.number]: integers and floats, not [bool] *)
Definition is_number (s : Series) : bool :=
  match s with
  | Int64 _ | Float64 _ => true
  | Bool _ | Object _ => false
  end.

(** [s.astype(str)]: every value through [str], a missing value as "nan" *)
Definition astype_str (s : Series) : list string := map str (values s).

(** [np.tile(s, k)] *)
Definition tile (s : Series) (k : nat) : Series :=
  match s with
  | Int64 xs => Int64 (concat (repeat xs k))
  | Float64 xs => Float64 (concat (repeat xs k))
  | Bool xs => Bool (concat (repeat xs k))
  | Object xs => Object (concat (repeat xs k))
  end.

(** *** The median of a column of lengths *)

Fixpoint insert (x : nat) (l : list nat) : list nat :=
  match l with
  | [] => [x]
  | y :: l' => if (x <=? y)%nat then x :: l else y :: insert x l'
  end.

Definition sort (l : list nat) : list nat := fold_right insert [] l.

(** [s.median()] for a column of integers: the middle value of the sorted
    values, the mean of the two middle values for an even count, and NaN
    ([None]) for no values at all. *)
Definition median (l : list nat) : option Q :=
  let s := sort l in
  let n := length s in
  if (n =? 0)%nat then None
  else if Nat.even n
  then Some ((inject_Z (Z.of_nat (nth (n / 2 - 1) s O))
              + inject_Z (Z.of_nat (nth (n / 2) s O))) / 2)%Q
  else Some (inject_Z (Z.of_nat (nth (n / 2) s O))).

(** [x >= t] for a float [x] that may be NaN: a comparison with NaN is
    [False]. *)
Definition ge (x : option Q) (t : Q) : bool :=
  match x with
  | Some q => Qle_bool t q
  | None => false
  end.

(** *** Frames *)

Definition column : Type := string * Series.

(** A frame: the length of its index and its named columns, in order.
    Names may repeat. *)
Record DataFrame : Type := mkDataFrame {
  n_rows : nat;
  cols : list column
}.

(** [df.columns.tolist()] *)
Definition columns (df : DataFrame) : list string := map fst (cols df).

(** Every column is as long as the index. *)
Definition well_formed (df : DataFrame) : Prop :=
  Forall (fun c => size (snd c) = n_rows df) (cols df).

(** [df.columns = names]; a length mismatch raises *)
Definition set_columns (names : list string) (df : DataFrame)
  : option DataFrame :=
  if (length names =? length (cols df))%nat
  then Some (mkDataFrame (n_rows df) (combine names (map snd (cols df))))
  else None.

Fixpoint duplicated_from (seen names : list string) : list bool :=
  match names with
  | [] => []
  | x :: rest => existsb (String.eqb x) seen :: duplicated_from (x :: seen) rest
  end.

(** [index.duplicated()]: [True] at every occurrence of a name but its
    first *)
Definition duplicated (names : list string) : list bool :=
  duplicated_from [] names.

(** [df.loc[:, mask]] for a boolean mask; a mask of the wrong length
    raises *)
Definition loc_columns (mask : list bool) (df : DataFrame)
  : option DataFrame :=
  if (length mask =? length (cols df))%nat
  then Some (mkDataFrame (n_rows df)
               (map snd (filter fst (combine mask (cols df)))))
  else None.

(** [df.select_dtypes(np.number)] *)
Definition select_dtypes_number (df : DataFrame) : DataFrame :=
  mkDataFrame (n_rows df) (filter (fun c => is_number (snd c)) (cols df)).

(** [df[k]] as a column: the name must be there, and once (with a
    repeated name pandas hands back a frame, on which the length test of
    the notebook raises) *)
Definition getitem (df : DataFrame) (k : string) : option Series :=
  match filter (fun c => String.eqb (fst c) k) (cols df) with
  | [c] => Some (snd c)
  | _ => None
  end.

(** [k in df.columns] *)
Definition has_column (df : DataFrame) (k : string) : bool :=
  existsb (fun c => String.eqb (fst c) k) (cols df).

(** [df[k] = v] for a single value [v]: the columns called [k] are
    overwritten in place, a new column is added at the end otherwise *)
Definition setitem (df : DataFrame) (k : string) (v : scalar) : DataFrame :=
  let s := Object (repeat v (n_rows df)) in
  if has_column df k
  then mkDataFrame (n_rows df)
         (map (fun c => if String.eqb (fst c) k then (k, s) else c) (cols df))
  else mkDataFrame (n_rows df) (cols df ++ [(k, s)]).

Fixpoint positions_from (i : nat) (names : list string) (k : string)
  : list nat :=
  match names with
  | [] => []
  | x :: rest =>
      (if String.eqb x k then [i] else []) ++ positions_from (S i) rest k
  end.

(** [index.get_indexer_for(labels)]: the positions of every label, all of
    them for a repeated name; a label that is not there raises (the
    callers below turn the -1 of pandas into a [KeyError]) *)
Fixpoint get_indexer_for (names labels : list string) : option (list nat) :=
  match labels with
  | [] => Some []
  | k :: rest =>
      match positions_from 0 names k with
      | [] => None
      | ps => idx <- get_indexer_for names rest ;; Some (ps ++ idx)
      end
  end.

Fixpoint unique_from (seen idx : list nat) : list nat :=
  match idx with
  | [] => []
  | i :: rest =>
      if existsb (Nat.eqb i) seen then unique_from seen rest
      else i :: unique_from (i :: seen) rest
  end.

(** [algos.unique(idx)]: first occurrences, in order *)
Definition unique (idx : list nat) : list nat := unique_from [] idx.

(** [df.iloc[:, idx]]; a position out of range raises *)
Fixpoint take (cs : list column) (idx : list nat) : option (list column) :=
  match idx with
  | [] => Some []
  | i :: rest =>
      c <- nth_error cs i ;; r <- take cs rest ;; Some (c :: r)
  end.

Definition iloc_columns (df : DataFrame) (idx : list nat)
  : option DataFrame :=
  cs <- take (cols df) idx ;; Some (mkDataFrame (n_rows df) cs).

(** [df[labels]] for a list of labels *)
Definition getitem_list (df : DataFrame) (labels : list string)
  : option DataFrame :=
  idx <- get_indexer_for (columns df) labels ;; iloc_columns df idx.

(** [df.pop(k)]: the column and the frame without it; a name that is
    not there raises, and so does (in [melt], when the frame is built) a
    name that several columns carry *)
Definition pop (df : DataFrame) (k : string) : option (Series * DataFrame) :=
  s <- getitem df k ;;
  Some (s, mkDataFrame (n_rows df)
             (filter (fun c => negb (String.eqb (fst c) k)) (cols df))).

(** [d[k] = v] on a dict kept in insertion order *)
Fixpoint dict_set (d : list column) (k : string) (v : Series) : list column :=
  match d with
  | [] => [(k, v)]
  | (k', v') :: rest =>
      if String.eqb k' k then (k', v) :: rest else (k', v') :: dict_set rest k v
  end.

Fixpoint dict_get (d : list column) (k : string) : option Series :=
  match d with
  | [] => None
  | (k', v') :: rest => if String.eqb k' k then Some v' else dict_get rest k
  end.

Fixpoint dict_get_all (d : list column) (ks : list string)
  : option (list column) :=
  match ks with
  | [] => Some []
  | k :: rest =>
      v <- dict_get d k ;; r <- dict_get_all d rest ;; Some ((k, v) :: r)
  end.

Definition all_equal (ns : list nat) : bool :=
  match ns with
  | [] => true
  | n :: rest => forallb (Nat.eqb n) rest
  end.

(** [DataFrame(mdata, columns=mcolumns)]: the arrays of the dict in the
    order of [mcolumns]; arrays of different lengths raise *)
Definition from_dict (mdata : list column) (mcolumns : list string)
  : option DataFrame :=
  cs <- dict_get_all mdata mcolumns ;;
  let sizes := map (fun c => size (snd c)) cs in
  if all_equal sizes then Some (mkDataFrame (hd O sizes) cs) else None.

(** The loop of [melt] over [id_vars]: each one is popped from the frame
    and tiled once per remaining column. *)
Fixpoint pop_id_vars (frame : DataFrame) (id_vars : list string)
  (num_cols_adjusted : nat) (mdata : list column)
  : option (list column * DataFrame) :=
  match id_vars with
  | [] => Some (mdata, frame)
  | col :: rest =>
      p <- pop frame col ;;
      pop_id_vars (snd p) rest num_cols_adjusted
        (dict_set mdata col (tile (fst p) num_cols_adjusted))
  end.

(** [pd.melt(frame, id_vars=id_vars, value_vars=value_vars)] with the
    default names "variable" and "value".  A frame that already has a
    column "value" raises, and so does a label that is not a column.
    The frame is cut to the columns named, each once; the identifier
    columns are popped and repeated, the remaining columns are laid one
    after the other in "value", their names alongside in "variable".
    The cells of "value" are kept as they are read (pandas brings them to
    one numeric dtype). *)
Definition melt (frame : DataFrame) (id_vars value_vars : list string)
  : option DataFrame :=
  if existsb (String.eqb "value") (columns frame) then None
  else
    idx <- get_indexer_for (columns frame) (id_vars ++ value_vars) ;;
    frame <- iloc_columns frame (unique idx) ;;
    let num_rows := n_rows frame in
    let num_cols_adjusted := (length (cols frame) - length id_vars)%nat in
    p <- pop_id_vars frame id_vars num_cols_adjusted [] ;;
    let mdata := fst p in
    let frame := snd p in
    let mcolumns := id_vars ++ ["variable"] ++ ["value"] in
    let mdata :=
      dict_set mdata "value"
        (Object (concat (map (fun c => values (snd c)) (cols frame)))) in
    let mdata :=
      dict_set mdata "variable"
        (Object (flat_map (fun c => repeat (SStr (fst c)) num_rows)
                          (cols frame))) in
    from_dict mdata mcolumns.

End Pandas.

(** ** Stage 3 of the notebook: non-standard files *)

Module Notebook.
Import PyStr PyFloat Pandas.

(** The three lines the loop prints, each with the report identifier. *)
Inductive line : Type :=
| Locations_Extracted (key : string)
| No_locations_found (key : string)
| Error_reading_file (key : string).

Definition text (l : line) : string :=
  match l with
  | Locations_Extracted key => ("Locations Extracted " ++ key)%string
  | No_locations_found key =>
      ("No locations found based on values being decmials of 6 significant places "
       ++ key)%string
  | Error_reading_file key => ("Error reading file  " ++ key)%string
  end.

(** The global list the loop appends to, and what has been printed. *)
Record state : Type := mkState {
  sub_df_list : list DataFrame;
  printed : list line
}.

(** [sub_df[k].astype(str).apply(len).median()] *)
Definition median_length (s : Series) : option Q :=
  median (map String.length (astype_str s)).

(** The inner loop: [k] is appended when its median length is at least
    5.0. *)
Fixpoint locations_loop (sub_df : DataFrame) (numbered_columns : list string)
  (potential_locations : list string) : option (list string) :=
  match numbered_columns with
  | [] => Some potential_locations
  | k :: rest =>
      s <- getitem sub_df k ;;
      let length := median_length s in
      if ge length 5
      then locations_loop sub_df rest (potential_locations ++ [k])
      else locations_loop sub_df rest potential_locations
  end.

(** Lower-cased names, then the duplicate columns dropped. *)
Definition drop_duplicate_columns (sub_df : DataFrame) : option DataFrame :=
  sub_df <- set_columns (map lower (columns sub_df)) sub_df ;;
  loc_columns (map negb (duplicated (columns sub_df))) sub_df.

Definition numbered_columns (sub_df : DataFrame) : list string :=
  columns (select_dtypes_number sub_df).

Definition potential_ids (sub_df : DataFrame) : list string :=
  filter (fun x => contains "hole" (lower x)) (columns sub_df).

(** The table that is melted when there are potential locations. *)
Definition extract (key : string) (sub_df : DataFrame)
  (potential_locations potential_ids : list string) : option DataFrame :=
  let sub_df := setitem sub_df "report_id" (SStr key) in
  sub_df <- getitem_list sub_df
              (["report_id"] ++ potential_locations ++ potential_ids) ;;
  sub_df <- loc_columns (map negb (duplicated (columns sub_df))) sub_df ;;
  melt sub_df ["report_id"] potential_locations.

Section Stage3.

(** [pd.read_csv(url, encoding='latin', sep='\t')]: the table behind a
    URL, [None] when fetching or parsing raises. *)
Variable read_csv : string -> option DataFrame.

(** The body of the [try]. *)
Definition try_block (key value : string) (st : state) : option state :=
  let resource_url := value in
  sub_df <- read_csv resource_url ;;
  sub_df <- drop_duplicate_columns sub_df ;;
  let numbered_columns := numbered_columns sub_df in
  let potential_ids := potential_ids sub_df in
  potential_locations <- locations_loop sub_df numbered_columns [] ;;
  st <- (if (0 <? length potential_locations)%nat
         then
           sub_df_a <- extract key sub_df potential_locations potential_ids ;;
           Some (mkState (sub_df_list st ++ [sub_df_a])
                         (printed st ++ [Locations_Extracted key]))
         else Some st) ;;
  if (length potential_locations =? 0)%nat
  then Some (mkState (sub_df_list st) (printed st ++ [No_locations_found key]))
  else Some st.

(** One turn of the loop: [try: ... except: print("Error reading file ",
    key)].  Nothing is appended or printed in the [try] before its last
    statements, so a raised exception leaves the state as it was. *)
Definition iteration (st : state) (item : string * string) : state :=
  let (key, value) := item in
  match try_block key value st with
  | Some st' => st'
  | None => mkState (sub_df_list st) (printed st ++ [Error_reading_file key])
  end.

(** [for key, value in other.items(): ...] from an empty [sub_df_list]. *)
Definition stage3 (other : list (string * string)) : state :=
  fold_left iteration other (mkState [] []).

End Stage3.

End Notebook.

(** ** Notions the properties are stated with *)

Module Spec.
Import PyStr PyFloat Pandas Notebook.

(** The columns under their lower-cased names. *)
Definition rename_lower (cs : list column) : list column :=
  map (fun c => (lower (fst c), snd c)) cs.

(** Duplicate column names removed, the first occurrence kept, in stable
    order: the head stays, and no later column carries its name. *)
Fixpoint remove_duplicate_names (cs : list column) : list column :=
  match cs with
  | [] => []
  | c :: rest =>
      c :: filter (fun d => negb (String.eqb (fst d) (fst c)))
                  (remove_duplicate_names rest)
  end.

(** The same in one pass, with the names met so far. *)
Fixpoint keep_first_from (seen : list string) (cs : list column)
  : list column :=
  match cs with
  | [] => []
  | c :: rest =>
      if existsb (String.eqb (fst c)) seen
      then keep_first_from (fst c :: seen) rest
      else c :: keep_first_from (fst c :: seen) rest
  end.

(** First occurrences of a list of labels. *)
Fixpoint first_labels_from (seen labels : list string) : list string :=
  match labels with
  | [] => []
  | k :: rest =>
      if existsb (String.eqb k) seen
      then first_labels_from seen rest
      else k :: first_labels_from (k :: seen) rest
  end.

(** The column called [k], an empty one when there is none. *)
Definition get (cs : list column) (k : string) : Series :=
  match dict_get cs k with
  | Some s => s
  | None => Object []
  end.

(** The columns of [cs] called [labels], in the order of [labels]. *)
Definition select (cs : list column) (labels : list string) : list column :=
  map (fun k => (k, get cs k)) labels.

(** The test of the inner loop on one column. *)
Definition qualifies (s : Series) : bool := ge (median_length s) 5.

(** A Coordinate Column: numeric, with a median rendered length of 5 or
    more. *)
Definition coordinate_column (c : column) : bool :=
  is_number (snd c) && qualifies (snd c).

Definition is_missing (x : float64) : bool :=
  match x with
  | NaN => true
  | _ => false
  end.

(** The number of missing values of a float column. *)
Definition count_missing (xs : list float64) : nat :=
  length (filter is_missing xs).

(** A rendered length below the threshold. *)
Definition short (n : nat) : bool := (n <? 5)%nat.

(** The cells of a frame's column called [k]. *)
Definition cells (df : DataFrame) (k : string) : list scalar :=
  values (get (cols df) k).

(** The first position of [k] in [names]. *)
Fixpoint index_of (names : list string) (k : string) : nat :=
  match names with
  | [] => O
  | x :: rest => if String.eqb x k then O else S (index_of rest k)
  end.

(** The frame once its names are lower-cased and its duplicate columns
    dropped. *)
Definition normalized (df : DataFrame) : DataFrame :=
  mkDataFrame (n_rows df) (remove_duplicate_names (rename_lower (cols df))).

(** The value columns that are left to unpivot once the identifier column
    "report_id" has been put aside. *)
Definition unpivoted (potential_locations : list string) : list string :=
  first_labels_from ["report_id"] potential_locations.

(** The three columns of the long table: one row per unpivoted column and
    row of the frame. *)
Definition melted_columns (key : string) (df : DataFrame)
  (potential_locations : list string) : list column :=
  let vars := unpivoted potential_locations in
  [("report_id",
    tile (Object (repeat (SStr key) (n_rows df))) (length vars));
   ("variable",
    Object (flat_map (fun k => repeat (SStr k) (n_rows df)) vars));
   ("value", Object (concat (map (fun k => cells df k) vars)))].

(** The names of the Coordinate Columns of a frame, in column order. *)
Definition coordinate_columns (df : DataFrame) : list string :=
  map fst (filter coordinate_column (cols df)).

End Spec.

(** ** Tables used as examples *)

Module Scenarios.
Import PyStr PyFloat Pandas Notebook.

(** 451234.56 and 7845321.12 *)
Definition easting_value : float64 := Finite false "45123456" 6.
Definition northing_value : float64 := Finite false "784532112" 7.

(** One row: Easting=451234.56, Northing=7845321.12, Hole_ID="DH001". *)
Definition collar_with_hole_id : DataFrame :=
  mkDataFrame 1
    [("Easting", Float64 [easting_value]);
     ("Northing", Float64 [northing_value]);
     ("Hole_ID", Object [SStr "DH001"])].

(** One row: ID=42, Depth=120. *)
Definition collar_without_coordinates : DataFrame :=
  mkDataFrame 1 [("ID", Int64 [42%Z]); ("Depth", Int64 [120%Z])].



(** The same name in two cases. *)
Definition collar_with_easting_twice : DataFrame :=
  mkDataFrame 1
    [("Easting", Float64 [easting_value]);
     ("easting", Float64 [northing_value])].

(** A numeric column whose name contains "hole": Hole_Depth=120.5. *)
Definition collar_with_hole_depth : DataFrame :=
  mkDataFrame 1 [("Hole_Depth", Float64 [Finite false "1205" 3])].

(** A header line and no rows. *)
Definition collar_without_rows : DataFrame :=
  mkDataFrame 0 [("Easting", Object []); ("Hole_ID", Object [])].

(** Half of the values missing, and two out of three. *)
Definition half_missing : list float64 := [easting_value; NaN].
Definition mostly_missing : list float64 := [NaN; easting_value; NaN].

(** A portal with one readable resource. *)
Definition serve (url : string) (df : DataFrame) (u : string)
  : option DataFrame :=
  if String.eqb u url then Some df else None.

End Scenarios.

(** ** Stage 1: the reports of the area and their collar files *)

Module Portal.
Import PyStr Pandas.

(** A Python [dict] with [str] keys, in insertion order. *)
Definition dict (V : Type) : Type := list (string * V).

Section Dict.

Context {V : Type}.

(** [d[k] = v]: an existing key keeps its place and takes the new value, a
    new key goes to the end. *)
Fixpoint put (d : dict V) (k : string) (v : V) : dict V :=
  match d with
  | [] => [(k, v)]
  | (k', v') :: rest =>
      if String.eqb k' k then (k', v) :: rest else (k', v') :: put rest k v
  end.

(** [d.get(k)] *)
Fixpoint lookup (d : dict V) (k : string) : option V :=
  match d with
  | [] => None
  | (k', v') :: rest => if String.eqb k' k then Some v' else lookup rest k
  end.

(** [d.keys()] *)
Definition keys (d : dict V) : list string := map fst d.

End Dict.

(** One entry of [report['resources']]; a field is [None] when the key is
    not in the JSON object. *)
Record resource : Type := mkResource {
  resource_name : option string;
  resource_url : option string
}.

(** One report of the search result, with the three keys the notebook
    reads: 'resources', 'open_file_date' and 'extra:identifier'. *)
Record report : Type := mkReport {
  resources : option (list resource);
  open_file_date : option string;
  extra_identifier : option string
}.

(** [a >= b] on strings: lexicographic in the code points. *)
Definition str_ge (a b : string) : bool := String.leb b a.

(** The loop over the resources of one report.  Reading a key that is not
    there raises, and the cell has no handler, so [None] ends the cell. *)
Fixpoint resources_loop (identifier : option string) (rs : list resource)
  (collar_file_dict : dict string) : option (dict string) :=
  match rs with
  | [] => Some collar_file_dict
  | resource :: rest =>
      name <- resource_name resource ;;
      let name := lower name in
      if contains "collar" name
      then
        value <- resource_url resource ;;
        key <- identifier ;;
        resources_loop identifier rest (put collar_file_dict key value)
      else resources_loop identifier rest collar_file_dict
  end.

(** The body of [for report in report_list]. *)
Definition report_step (collar_file_dict : dict string) (report : report)
  : option (dict string) :=
  match resources report, open_file_date report with
  | Some rs, Some date =>
      if str_ge date "2010-01-01"
      then resources_loop (extra_identifier report) rs collar_file_dict
      else Some collar_file_dict
  | _, _ => Some collar_file_dict
  end.

Fixpoint reports_loop (report_list : list report)
  (collar_file_dict : dict string) : option (dict string) :=
  match report_list with
  | [] => Some collar_file_dict
  | report :: rest =>
      d <- report_step collar_file_dict report ;;
      reports_loop rest d
  end.

(** The cell: [collar_file_dict = {}] and the loop. *)
Definition collar_files (report_list : list report) : option (dict string) :=
  reports_loop report_list [].

End Portal.

(** ** Stage 1: the pages of the search *)

Module Search.
Import Pandas Portal.

Section Pages.

(** [requests.get(api + 'package_search?rows={rows}&start={start}', ...)
    .json()['result']['results']] for the bounding box of the notebook;
    [None] when the request or the reading of its answer raises. *)
Variable package_search : N -> N -> option (list report).

(** [while i < 3000: ...; i = i + 1000], with [rows_end = i + 1000] sent as
    rows and [rows_start = i] as start. *)
Function pages_loop (i : N) (response_list : list (list report))
  {measure (fun i => N.to_nat (3000 - i)) i} : option (list (list report)) :=
  if (i <? 3000)%N
  then
    let rows_start := i in
    let rows_end := (i + 1000)%N in
    match package_search rows_end rows_start with
    | Some results =>
        pages_loop (i + 1000)%N (response_list ++ [results])
    | None => None
    end
  else Some response_list.
Proof.
  intros i _ Hi _ _. apply N.ltb_lt in Hi. lia.
Defined.

(** [report_list = sum(response_list, [])] after the loop from [i = 0]. *)
Definition report_list : option (list report) :=
  response_list <- pages_loop 0%N [] ;; Some (concat response_list).

End Pages.

End Search.

(** ** Stage 2: GGIC templates and other files *)

Module Templates.
Import PyStr Pandas Portal.

(** [s.replace(old, new)] for a pattern [old] of one character *)
Fixpoint replace_char (old : ascii) (new s : string) : string :=
  match s with
  | EmptyString => EmptyString
  | String c s' =>
      if Ascii.eqb c old then (new ++ replace_char old new s')%string
      else String c (replace_char old new s')
  end.

Definition tab : ascii := ascii_of_nat 9.
Definition carriage_return : ascii := ascii_of_nat 13.

(** The text the template test looks at: tabs as blanks, carriage returns
    removed. *)
Definition cleaned (response : string) : string :=
  let response := replace_char tab " " response in
  replace_char carriage_return "" response.

(** ['H0001' in response or 'H0002' in response] *)
Definition has_ggic_tag (response : string) : bool :=
  contains "H0001" response || contains "H0002" response.

(** The two dicts and the counter of the cell. *)
Record tally : Type := mkTally {
  ggic : dict string;
  other : dict string;
  error_reading_file : nat
}.

Section Stage2.

(** [urllib.request.urlopen(url).read(500).decode('utf-8')]: the text of
    the first 500 bytes (as its UTF-8 bytes), [None] when opening, reading
    or decoding raises. *)
Variable urlopen_read : string -> option string.

(** One turn of the loop, with its [try] and [except]. *)
Definition classify (t : tally) (item : string * string) : tally :=
  let (key, value) := item in
  match urlopen_read value with
  | Some response =>
      let response := cleaned response in
      if has_ggic_tag response
      then mkTally (put (ggic t) key value) (other t) (error_reading_file t)
      else mkTally (ggic t) (put (other t) key value) (error_reading_file t)
  | None => mkTally (ggic t) (other t) (error_reading_file t + 1)
  end.

(** [for key, value in collar_file_dict.items(): ...] *)
Definition stage2 (collar_file_dict : dict string) : tally :=
  fold_left classify collar_file_dict (mkTally [] [] 0).

End Stage2.

End Templates.

(** ** The combined table of the potential locations *)

Module Combined.
Import PyStr PyFloat Pandas.

Definition digit_value (c : ascii) : Z := Z.of_nat (nat_of_ascii c) - 48.

Fixpoint digits_value (acc : Z) (digits : string) : Z :=
  match digits with
  | EmptyString => acc
  | String c rest => digits_value (10 * acc + digit_value c) rest
  end.

(** The number a cell stands for, when it is one: a finite float is its
    digits scaled by the position of the point, [True] and [False] are 1
    and 0. *)
Definition number (v : scalar) : option Q :=
  match v with
  | SInt n => Some (inject_Z n)
  | SBool b => Some (inject_Z (if b then 1 else 0))
  | SFloat (Finite negative digits decpt) =>
      let d := digits_value 0 digits in
      let d := if negative then (- d)%Z else d in
      let e := (decpt - Z.of_nat (String.length digits))%Z in
      Some (if (0 <=? e)%Z then inject_Z (d * 10 ^ e)
            else Qmake d (Z.to_pos (10 ^ (- e))))
  | _ => None
  end.

(** Two cells are one value for [unique]: equal numbers whatever their
    type, the same infinity, two missing values, or equal strings. *)
Definition same_value (a b : scalar) : bool :=
  match number a, number b with
  | Some x, Some y => Qeq_bool x y
  | None, None =>
      match a, b with
      | SStr s, SStr t => String.eqb s t
      | SFloat NaN, SFloat NaN => true
      | SFloat (Inf m), SFloat (Inf n) => Bool.eqb m n
      | _, _ => false
      end
  | _, _ => false
  end.

Fixpoint unique_from (seen vs : list scalar) : list scalar :=
  match vs with
  | [] => []
  | v :: rest =>
      if existsb (same_value v) seen then unique_from seen rest
      else v :: unique_from (v :: seen) rest
  end.

(** [s.unique()]: the values in order of first appearance *)
Definition Series_unique (s : Series) : list scalar :=
  unique_from [] (values s).

(** Two columns one after the other: the dtype is kept when it is the
    same, the cells are kept as they are otherwise (pandas brings them to
    one dtype). *)
Definition series_append (a b : Series) : Series :=
  match a, b with
  | Int64 x, Int64 y => Int64 (x ++ y)
  | Float64 x, Float64 y => Float64 (x ++ y)
  | Bool x, Bool y => Bool (x ++ y)
  | _, _ => Object (values a ++ values b)
  end.

(** The column called [k] of a frame for the union of columns: its cells,
    or a missing value in every row. *)
Definition column_or_missing (df : DataFrame) (k : string) : Series :=
  match getitem df k with
  | Some s => s
  | None => Float64 (repeat NaN (n_rows df))
  end.

Fixpoint first_names_from (seen names : list string) : list string :=
  match names with
  | [] => []
  | k :: rest =>
      if existsb (String.eqb k) seen then first_names_from seen rest
      else k :: first_names_from (k :: seen) rest
  end.

Definition same_columns (a b : DataFrame) : bool :=
  if list_eq_dec string_dec (columns a) (columns b) then true else false.

Definition unique_columns (df : DataFrame) : bool :=
  forallb negb (duplicated (columns df)).

Fixpoint append_all (first : Series) (rest : list Series) : Series :=
  match rest with
  | [] => first
  | s :: rest' => append_all (series_append first s) rest'
  end.

(** The columns of one frame put below those of another with the same
    names, position by position. *)
Fixpoint stack_below (above below : list column) : list column :=
  match above, below with
  | (k, s) :: above', (_, s') :: below' =>
      (k, series_append s s') :: stack_below above' below'
  | _, _ => above
  end.

(** [pd.concat(objs)]: the frames one below the other.  No frame at all
    raises.  Frames with the same columns are stacked column by column;
    otherwise the columns are the union of the names in order of first
    appearance, a frame without a column gives missing values, and a frame
    with a repeated name raises. *)
Definition concat_frames (objs : list DataFrame) : option DataFrame :=
  match objs with
  | [] => None
  | first :: rest =>
      let rows := list_sum (map n_rows objs) in
      if forallb (same_columns first) rest
      then
        Some (mkDataFrame rows
                (fold_left (fun above df => stack_below above (cols df))
                           rest (cols first)))
      else if forallb unique_columns objs
      then
        Some (mkDataFrame rows
                (map (fun k =>
                        (k, append_all (column_or_missing first k)
                              (map (fun df => column_or_missing df k) rest)))
                     (first_names_from [] (flat_map columns objs))))
      else None
  end.

(** The last cell: [final = pd.concat(sub_df_list)] and
    [final['variable'].unique()]. *)
Definition potential_locations_extracted (sub_df_list : list DataFrame)
  : option (list scalar) :=
  final <- concat_frames sub_df_list ;;
  variable <- getitem final "variable" ;;
  Some (Series_unique variable).

End Combined.

(** ** Further notions *)

Module Notions.
Import PyStr PyFloat Pandas Notebook Spec Portal Templates.

(** The identifier a printed line ends with. *)
Definition line_key (l : line) : string :=
  match l with
  | Locations_Extracted key => key
  | No_locations_found key => key
  | Error_reading_file key => key
  end.

Definition is_locations_extracted (l : line) : bool :=
  match l with
  | Locations_Extracted _ => true
  | _ => false
  end.

Definition is_digit (c : ascii) : bool :=
  let n := nat_of_ascii c in ((48 <=? n) && (n <=? 57))%nat.

Fixpoint all_digits (s : string) : bool :=
  match s with
  | EmptyString => true
  | String c s' => is_digit c && all_digits s'
  end.

(** A finite float with at least [n] digits before the decimal point: a
    non-empty string of digits and the point [n] or more places in. *)
Definition digits_before_point (n : Z) (x : float64) : Prop :=
  match x with
  | Finite _ digits decpt =>
      digits <> EmptyString /\ all_digits digits = true /\ (n <= decpt)%Z
  | _ => False
  end.

(** The URLs of the collar files of one report, in the order of its
    resources; none when the report lacks a key or is too old. *)
Definition collar_urls (r : report) : list string :=
  match resources r, open_file_date r with
  | Some rs, Some date =>
      if str_ge date "2010-01-01"
      then
        flat_map
          (fun res =>
             match resource_name res, resource_url res with
             | Some name, Some url =>
                 if contains "collar" (lower name) then [url] else []
             | _, _ => []
             end) rs
      else []
  | _, _ => []
  end.

(** The URLs of the collar files of the reports with identifier [k], in
    the order of the reports. *)
Definition collar_urls_for (k : string) (report_list : list report)
  : list string :=
  flat_map
    (fun r =>
       match extra_identifier r with
       | Some k' => if String.eqb k' k then collar_urls r else []
       | None => []
       end) report_list.

(** What stage 2 makes of the resource behind a URL. *)
Inductive template : Type :=
| GGIC
| Other
| Unreadable.

Definition verdict (urlopen_read : string -> option string) (value : string)
  : template :=
  match urlopen_read value with
  | Some response => if has_ggic_tag (cleaned response) then GGIC else Other
  | None => Unreadable
  end.

Definition is_GGIC (t : template) : bool :=
  match t with GGIC => true | _ => false end.

Definition is_Other (t : template) : bool :=
  match t with Other => true | _ => false end.

Definition is_Unreadable (t : template) : bool :=
  match t with Unreadable => true | _ => false end.

(** A table in long form: the three columns of [melt], with the names
    [names] in "variable". *)
Definition long_table (a : DataFrame) (names : list string) : Prop :=
  exists r c,
    cols a
    = [("report_id", Object r); ("variable", Object (map SStr names));
       ("value", Object c)].

(** The last element of a list, when there is one. *)
Definition last_of {A : Type} (l : list A) : option A :=
  match rev l with
  | [] => None
  | x :: _ => Some x
  end.

(** A report of 2015 with two collar files and a PDF, one of 2009, one
    without resources, and one of 2010 without identifier. *)
Definition report_with_two_collar_files : report :=
  mkReport
    (Some [mkResource (Some "CR1_Collar.txt") (Some "u1");
           mkResource (Some "report.pdf") (Some "u2");
           mkResource (Some "COLLAR_2.txt") (Some "u3")])
    (Some "2015-06-30") (Some "CR1").

Definition report_of_2009 : report :=
  mkReport (Some [mkResource (Some "collar.txt") (Some "u4")])
    (Some "2009-12-31") (Some "CR2").

Definition report_without_resources : report :=
  mkReport None (Some "2015-06-30") None.

Definition report_without_identifier : report :=
  mkReport (Some [mkResource (Some "collar.txt") (Some "u5")])
    (Some "2010-01-01") None.

(** A date in the form YYYY-MM-DD. *)
Definition two_digits (n : nat) : string :=
  String (ascii_of_nat (48 + n / 10))
    (String (ascii_of_nat (48 + n mod 10)) EmptyString).

Definition iso_date (year month day : nat) : string :=
  (two_digits (year / 100) ++ two_digits (year mod 100) ++ "-"
   ++ two_digits month ++ "-" ++ two_digits day)%string.

End Notions.

Import PyStr PyFloat Pandas Notebook Spec Scenarios.

(** * Properties *)

(** ** The embedding on small inputs *)

Example lower_samples :
  map lower ["Hole_ID"; "EASTING amg66Z54"; "Drillhole Number"]
  = ["hole_id"; "easting amg66z54"; "drillhole number"].
Proof. reflexivity. Qed.

Example contains_samples :
  map (contains "hole") ["drillhole number"; "hole_id"; "easting"; "hol"]
  = [true; true; false; false].
Proof. reflexivity. Qed.

Example str_int_samples :
  map str_int [42; 120; -7; 0; 100234]%Z
  = ["42"; "120"; "-7"; "0"; "100234"].
Proof. reflexivity. Qed.

(** 451234.56, 7845321.12, 120.0, -0.5, 0.001, 0.0, 1e16, 1.5e-05,
    1234567890123456.8, -2.5 and a missing value. *)
Example str_float_samples :
  map str_float
      [Finite false "45123456" 6; Finite false "784532112" 7;
       Finite false "12" 3; Finite true "5" 0; Finite false "1" (-2);
       Finite false "0" 1; Finite false "1" 17; Finite false "15" (-4);
       Finite false "12345678901234568" 16; Finite true "25" 1; NaN]
  = ["451234.56"; "7845321.12"; "120.0"; "-0.5"; "0.001"; "0.0"; "1e+16";
     "1.5e-05"; "1234567890123456.8"; "-2.5"; "nan"].
Proof. reflexivity. Qed.

Example median_samples :
  map median [[]; [9]; [9; 3]; [2; 9; 3]; [4; 5; 5; 6]]%nat
  = [None; Some (9 # 1); Some (12 # 2); Some (3 # 1); Some (10 # 2)]%Q.
Proof. reflexivity. Qed.

Example ge_samples :
  map (fun x => ge x 5) [None; Some (9 # 2); Some (10 # 2); Some (6 # 1)]%Q
  = [false; false; true; true].
Proof. reflexivity. Qed.

Example duplicated_samples :
  duplicated ["easting"; "northing"; "easting"; "rl"; "northing"]
  = [false; false; true; false; true].
Proof. reflexivity. Qed.

Example melt_sample :
  melt (mkDataFrame 2
          [("id", Object [SStr "a"; SStr "b"]);
           ("x", Int64 [1; 2]%Z); ("y", Int64 [3; 4]%Z)])
       ["id"] ["x"; "y"]
  = Some (mkDataFrame 4
            [("id", Object [SStr "a"; SStr "b"; SStr "a"; SStr "b"]);
             ("variable", Object [SStr "x"; SStr "x"; SStr "y"; SStr "y"]);
             ("value", Object [SInt 1; SInt 2; SInt 3; SInt 4])]).
Proof. reflexivity. Qed.

(** Two datasets, one with coordinates and one without: the tables
    collected are those of the first. *)
Example two_datasets :
  let read_csv u :=
    if String.eqb u "a" then Some collar_with_hole_id
    else if String.eqb u "b" then Some collar_without_coordinates
    else None in
  let st := stage3 read_csv [("CR000001", "a"); ("CR000002", "b")] in
  printed st = [Locations_Extracted "CR000001"; No_locations_found "CR000002"]
  /\ sub_df_list st
     = sub_df_list (stage3 read_csv [("CR000001", "a")]).
Proof. split; vm_compute; reflexivity. Qed.

(** ** Names and first occurrences *)

Section Names.

Lemma existsb_eqb_In (k : string) (l : list string) :
  existsb (String.eqb k) l = true <-> In k l.
Proof.
  rewrite existsb_exists. split.
  - intros [x [Hx He]]. apply String.eqb_eq in He. now subst.
  - intros H. exists k. split; [assumption | apply String.eqb_refl].
Qed.

Lemma existsb_eqb_not_In (k : string) (l : list string) :
  existsb (String.eqb k) l = false <-> ~ In k l.
Proof.
  split.
  - intros E H. apply existsb_eqb_In in H. congruence.
  - intros H. destruct (existsb (String.eqb k) l) eqn:E; [|reflexivity].
    apply existsb_eqb_In in E. contradiction.
Qed.

Lemma mask_keep_first (seen : list string) (cs : list column) :
  map snd (filter fst
             (combine (map negb (duplicated_from seen (map fst cs))) cs))
  = keep_first_from seen cs.
Proof.
  revert seen. induction cs as [|c rest IH]; intros seen; simpl.
  - reflexivity.
  - destruct (existsb (String.eqb (fst c)) seen); simpl; now rewrite IH.
Qed.

Lemma filter_filter {A : Type} (p q : A -> bool) (l : list A) :
  filter p (filter q l) = filter (fun x => q x && p x) l.
Proof.
  induction l as [|x l IH]; simpl; [reflexivity|].
  destruct (q x); simpl; [destruct (p x)|]; now rewrite IH.
Qed.

Lemma keep_first_filter (seen : list string) (cs : list column) :
  keep_first_from seen cs
  = filter (fun c => negb (existsb (String.eqb (fst c)) seen))
           (remove_duplicate_names cs).
Proof.
  revert seen. induction cs as [|c rest IH]; intros seen; simpl.
  - reflexivity.
  - rewrite filter_filter, IH.
    assert (E : forall l,
      filter (fun c0 : column =>
                negb (existsb (String.eqb (fst c0)) (fst c :: seen))) l
      = filter (fun x : column =>
                  negb (String.eqb (fst x) (fst c))
                  && negb (existsb (String.eqb (fst x)) seen)) l).
    { intros l. apply filter_ext. intros x. simpl. now rewrite negb_orb. }
    destruct (existsb (String.eqb (fst c)) seen); simpl; now rewrite E.
Qed.

Lemma keep_first_nil (cs : list column) :
  keep_first_from [] cs = remove_duplicate_names cs.
Proof.
  rewrite keep_first_filter.
  generalize (remove_duplicate_names cs). intros l.
  induction l as [|x l IH]; simpl in *; [reflexivity | exact (f_equal (cons x) IH)].
Qed.

Lemma keep_first_incl (seen : list string) (cs : list column) (c : column) :
  In c (keep_first_from seen cs) -> In c cs.
Proof.
  revert seen. induction cs as [|d rest IH]; intros seen; simpl; [tauto|].
  destruct (existsb _ seen); simpl; intros H.
  - right. eauto.
  - destruct H as [H|H]; [now left | right; eauto].
Qed.

Lemma keep_first_fresh (seen : list string) (cs : list column) (k : string) :
  In k (map fst (keep_first_from seen cs)) -> ~ In k seen.
Proof.
  revert seen. induction cs as [|d rest IH]; intros seen; simpl; [tauto|].
  destruct (existsb (String.eqb (fst d)) seen) eqn:E; simpl; intros H.
  - apply IH in H. simpl in H. tauto.
  - destruct H as [H|H].
    + subst k. now apply existsb_eqb_not_In.
    + apply IH in H. simpl in H. tauto.
Qed.

Lemma keep_first_NoDup (seen : list string) (cs : list column) :
  NoDup (map fst (keep_first_from seen cs)).
Proof.
  revert seen. induction cs as [|d rest IH]; intros seen; simpl.
  - constructor.
  - destruct (existsb (String.eqb (fst d)) seen); simpl; [apply IH|].
    constructor; [|apply IH].
    intros H. apply keep_first_fresh in H. simpl in H. tauto.
Qed.

Lemma keep_first_dict_get (seen : list string) (cs : list column) (k : string) :
  ~ In k seen -> dict_get (keep_first_from seen cs) k = dict_get cs k.
Proof.
  revert seen. induction cs as [|[k' s'] rest IH]; intros seen Hk; simpl.
  - reflexivity.
  - destruct (existsb (String.eqb k') seen) eqn:E; simpl.
    + apply existsb_eqb_In in E.
      destruct (String.eqb_spec k' k) as [->|Hne]; [contradiction|].
      apply IH. simpl. tauto.
    + destruct (String.eqb_spec k' k) as [->|Hne]; [reflexivity|].
      apply IH. simpl. tauto.
Qed.

Lemma dict_get_In (cs : list column) (k : string) (s : Series) :
  dict_get cs k = Some s -> In (k, s) cs.
Proof.
  induction cs as [|[k' s'] rest IH]; simpl; [discriminate|].
  destruct (String.eqb_spec k' k) as [->|Hne].
  - intros [= ->]. now left.
  - intros H. right. now apply IH.
Qed.

Lemma In_dict_get (cs : list column) (k : string) (s : Series) :
  NoDup (map fst cs) -> In (k, s) cs -> dict_get cs k = Some s.
Proof.
  induction cs as [|[k' s'] rest IH]; simpl; [tauto|].
  intros Hnd [H|H].
  - injection H as -> ->. now rewrite String.eqb_refl.
  - inversion Hnd as [|? ? Hnot Hnd']; subst.
    destruct (String.eqb_spec k' k) as [->|Hne].
    + exfalso. apply Hnot. now apply (in_map fst) in H.
    + now apply IH.
Qed.

Lemma dict_get_names (cs : list column) (k : string) :
  In k (map fst cs) -> exists s, dict_get cs k = Some s.
Proof.
  induction cs as [|[k' s'] rest IH]; simpl; [tauto|].
  destruct (String.eqb_spec k' k) as [->|Hne]; [eauto|].
  intros [H|H]; [contradiction | auto].
Qed.

Lemma dict_get_None (cs : list column) (k : string) :
  ~ In k (map fst cs) -> dict_get cs k = None.
Proof.
  induction cs as [|[k' s'] rest IH]; simpl; [reflexivity|].
  intros H. destruct (String.eqb_spec k' k) as [->|Hne]; [tauto|].
  apply IH. tauto.
Qed.

Lemma filter_name_single (cs : list column) (k : string) (s : Series) :
  NoDup (map fst cs) -> dict_get cs k = Some s ->
  filter (fun c => String.eqb (fst c) k) cs = [(k, s)].
Proof.
  induction cs as [|[k' s'] rest IH]; simpl; [discriminate|].
  intros Hnd. inversion Hnd as [|? ? Hnot Hnd']; subst.
  destruct (String.eqb_spec k' k) as [->|Hne].
  - intros [= ->]. f_equal.
    clear IH Hnd. induction rest as [|[k2 s2] rest IH2]; simpl; [reflexivity|].
    simpl in Hnot. inversion Hnd' as [|? ? Hn2 Hnd2]; subst.
    destruct (String.eqb_spec k2 k) as [->|Hne2]; [tauto|].
    apply IH2; tauto.
  - intros H. now apply IH.
Qed.

Lemma getitem_dict_get (df : DataFrame) (k : string) (s : Series) :
  NoDup (columns df) -> dict_get (cols df) k = Some s ->
  getitem df k = Some s.
Proof.
  intros Hnd H. unfold getitem.
  now rewrite (filter_name_single _ _ _ Hnd H).
Qed.

End Names.

(** ** Normalisation of the column names *)

Section Normalisation.

Lemma duplicated_from_length (seen names : list string) :
  length (duplicated_from seen names) = length names.
Proof.
  revert seen. induction names as [|x rest IH]; intros seen; simpl;
    [reflexivity | now rewrite IH].
Qed.

Lemma combine_rename (cs : list column) :
  combine (map lower (map fst cs)) (map snd cs) = rename_lower cs.
Proof.
  induction cs as [|c rest IH]; simpl; [reflexivity | now rewrite IH].
Qed.

Lemma loc_columns_not_duplicated (df : DataFrame) :
  loc_columns (map negb (duplicated (columns df))) df
  = Some (mkDataFrame (n_rows df) (keep_first_from [] (cols df))).
Proof.
  unfold loc_columns, duplicated, columns.
  rewrite length_map, duplicated_from_length, length_map, Nat.eqb_refl.
  now rewrite mask_keep_first.
Qed.

Lemma drop_duplicate_columns_normalized (df : DataFrame) :
  drop_duplicate_columns df = Some (normalized df).
Proof.
  unfold drop_duplicate_columns, set_columns.
  replace (length (map lower (columns df)) =? length (cols df))%nat with true
    by (unfold columns; rewrite !length_map; symmetry; apply Nat.eqb_refl).
  rewrite loc_columns_not_duplicated. simpl.
  unfold columns, normalized. now rewrite combine_rename, keep_first_nil.
Qed.

Lemma normalized_NoDup (df : DataFrame) : NoDup (columns (normalized df)).
Proof.
  unfold normalized, columns. simpl. rewrite <- keep_first_nil.
  apply keep_first_NoDup.
Qed.

Lemma normalized_incl (df : DataFrame) (c : column) :
  In c (cols (normalized df)) -> In c (rename_lower (cols df)).
Proof.
  unfold normalized. simpl. rewrite <- keep_first_nil.
  apply keep_first_incl.
Qed.

Lemma normalized_first (df : DataFrame) (k : string) :
  dict_get (cols (normalized df)) k = dict_get (rename_lower (cols df)) k.
Proof.
  unfold normalized. simpl. rewrite <- keep_first_nil.
  apply keep_first_dict_get. simpl. tauto.
Qed.

End Normalisation.

(** ** The inner loop *)

Section Loop.

Lemma locations_loop_filter (D : DataFrame) (cs : list column)
  (acc : list string) :
  NoDup (columns D) ->
  (forall c, In c cs -> In c (cols D)) ->
  locations_loop D (map fst cs) acc
  = Some (acc ++ map fst (filter (fun c => qualifies (snd c)) cs)).
Proof.
  intros Hnd. revert acc.
  induction cs as [|[k s] rest IH]; intros acc Hin; simpl.
  - now rewrite app_nil_r.
  - assert (Hk : getitem D k = Some s).
    { apply getitem_dict_get; [assumption|].
      apply In_dict_get; [assumption | apply Hin; now left]. }
    rewrite Hk. unfold qualifies at 1. simpl.
    destruct (ge (median_length s) 5).
    + rewrite IH by (intros c Hc; apply Hin; now right).
      simpl. now rewrite <- app_assoc.
    + apply IH. intros c Hc. apply Hin. now right.
Qed.

Lemma locations_loop_coordinate_columns (D : DataFrame) :
  NoDup (columns D) ->
  locations_loop D (numbered_columns D) [] = Some (coordinate_columns D).
Proof.
  intros Hnd. unfold numbered_columns, select_dtypes_number, columns. simpl.
  rewrite locations_loop_filter; [|assumption|].
  - simpl. unfold coordinate_columns. now rewrite filter_filter.
  - intros c Hc. apply filter_In in Hc. tauto.
Qed.

End Loop.

(** ** Selecting columns by label *)

Section Selection.

Lemma select_names (cs : list column) (labels : list string) :
  map fst (select cs labels) = labels.
Proof.
  unfold select. rewrite map_map. simpl. apply map_id.
Qed.

Lemma select_length (cs : list column) (labels : list string) :
  length (select cs labels) = length labels.
Proof. apply length_map. Qed.

Lemma select_variable (cs : list column) (labels : list string) (n : nat) :
  flat_map (fun c : column => repeat (SStr (fst c)) n) (select cs labels)
  = flat_map (fun k => repeat (SStr k) n) labels.
Proof.
  induction labels as [|k rest IH]; simpl; [reflexivity | now rewrite IH].
Qed.

Lemma select_values (cs : list column) (labels : list string) :
  map (fun c : column => values (snd c)) (select cs labels)
  = map (fun k => values (get cs k)) labels.
Proof.
  unfold select. now rewrite map_map.
Qed.

Lemma select_dict_get (cs : list column) (labels : list string) (k : string) :
  In k labels -> dict_get (select cs labels) k = Some (get cs k).
Proof.
  induction labels as [|x rest IH]; simpl; [tauto|].
  destruct (String.eqb_spec x k) as [->|Hne]; [reflexivity|].
  intros [H|H]; [contradiction | auto].
Qed.

Lemma select_get (cs : list column) (labels : list string) (k : string) :
  In k labels -> get (select cs labels) k = get cs k.
Proof.
  intros H. unfold get at 1. now rewrite select_dict_get.
Qed.

Lemma select_select (cs : list column) (labels l : list string) :
  (forall k, In k l -> In k labels) ->
  select (select cs labels) l = select cs l.
Proof.
  intros H. unfold select at 1 3. apply map_ext_in.
  intros k Hk. now rewrite select_get by auto.
Qed.

Lemma select_ext (cs cs' : list column) (l : list string) :
  (forall k, In k l -> get cs k = get cs' k) -> select cs l = select cs' l.
Proof.
  intros H. unfold select. apply map_ext_in. intros k Hk. now rewrite H.
Qed.

Lemma first_labels_In (seen labels : list string) (k : string) :
  In k (first_labels_from seen labels) <-> In k labels /\ ~ In k seen.
Proof.
  revert seen. induction labels as [|x rest IH]; intros seen; simpl.
  - tauto.
  - destruct (existsb (String.eqb x) seen) eqn:E.
    + apply existsb_eqb_In in E. rewrite IH.
      split; [tauto|]. intros [[->|H] Hs]; tauto.
    + apply existsb_eqb_not_In in E. simpl. rewrite IH. simpl.
      destruct (String.eqb_spec x k) as [->|Hne]; tauto.
Qed.

Lemma first_labels_NoDup (seen labels : list string) :
  NoDup (first_labels_from seen labels).
Proof.
  revert seen. induction labels as [|x rest IH]; intros seen; simpl.
  - constructor.
  - destruct (existsb (String.eqb x) seen); [apply IH|].
    constructor; [|apply IH].
    rewrite first_labels_In. simpl. tauto.
Qed.

Lemma first_labels_ext (seen seen' labels : list string) :
  (forall k, In k seen <-> In k seen') ->
  first_labels_from seen labels = first_labels_from seen' labels.
Proof.
  revert seen seen'. induction labels as [|x rest IH]; intros seen seen' H.
  - reflexivity.
  - simpl.
    assert (E : existsb (String.eqb x) seen = existsb (String.eqb x) seen').
    { destruct (existsb (String.eqb x) seen') eqn:E'.
      - apply existsb_eqb_In. apply H. now apply existsb_eqb_In.
      - apply existsb_eqb_not_In. rewrite H. now apply existsb_eqb_not_In. }
    rewrite E. destruct (existsb (String.eqb x) seen').
    + now apply IH.
    + f_equal. apply IH. intros k. simpl. rewrite H. tauto.
Qed.

Lemma keep_first_select (cs : list column) (seen labels : list string) :
  keep_first_from seen (select cs labels)
  = select cs (first_labels_from seen labels).
Proof.
  revert seen. induction labels as [|x rest IH]; intros seen; simpl.
  - reflexivity.
  - destruct (existsb (String.eqb x) seen) eqn:E; simpl; rewrite IH.
    + apply existsb_eqb_In in E. f_equal. apply first_labels_ext.
      intros k. simpl. split; [intros [<-|H]; assumption | tauto].
    + reflexivity.
Qed.

Lemma nth_error_index_of (cs : list column) (k : string) :
  In k (map fst cs) ->
  nth_error cs (index_of (map fst cs) k) = Some (k, get cs k).
Proof.
  unfold get. induction cs as [|[k' s'] rest IH]; simpl; [tauto|].
  destruct (String.eqb_spec k' k) as [->|Hne]; [reflexivity|].
  intros [H|H]; [contradiction | auto].
Qed.

Lemma index_of_inj (names : list string) (k k' : string) :
  In k names -> In k' names ->
  index_of names k = index_of names k' -> k = k'.
Proof.
  induction names as [|x rest IH]; simpl; [tauto|].
  destruct (String.eqb_spec x k) as [Ek|Hk];
    destruct (String.eqb_spec x k') as [Ek'|Hk']; try congruence.
  intros [?|H] [?|H'] [= E]; try contradiction. auto.
Qed.

Lemma positions_from_absent (i : nat) (names : list string) (k : string) :
  ~ In k names -> positions_from i names k = [].
Proof.
  revert i. induction names as [|x rest IH]; intros i; simpl; [reflexivity|].
  intros H. destruct (String.eqb_spec x k) as [->|Hne]; [tauto|].
  apply IH. tauto.
Qed.

Lemma positions_from_index (i : nat) (names : list string) (k : string) :
  NoDup names -> In k names ->
  positions_from i names k = [(i + index_of names k)%nat].
Proof.
  revert i. induction names as [|x rest IH]; intros i Hnd; simpl; [tauto|].
  inversion Hnd as [|? ? Hnot Hnd']; subst.
  destruct (String.eqb_spec x k) as [->|Hne]; intros Hin.
  - rewrite positions_from_absent by assumption. simpl. f_equal. lia.
  - destruct Hin as [?|Hin]; [contradiction|].
    rewrite IH by assumption. simpl. f_equal. lia.
Qed.

Lemma get_indexer_for_index (names labels : list string) :
  NoDup names -> (forall k, In k labels -> In k names) ->
  get_indexer_for names labels = Some (map (index_of names) labels).
Proof.
  intros Hnd. induction labels as [|k rest IH]; intros Hin; simpl.
  - reflexivity.
  - rewrite positions_from_index by (auto; apply Hin; now left).
    rewrite IH by (intros k' Hk'; apply Hin; now right). reflexivity.
Qed.

Lemma take_select (cs : list column) (labels : list string) :
  (forall k, In k labels -> In k (map fst cs)) ->
  take cs (map (index_of (map fst cs)) labels) = Some (select cs labels).
Proof.
  induction labels as [|k rest IH]; intros Hin; simpl.
  - reflexivity.
  - rewrite nth_error_index_of by (apply Hin; now left).
    rewrite IH by (intros k' Hk'; apply Hin; now right). reflexivity.
Qed.

Lemma existsb_index_of (names seen : list string) (k : string) :
  In k names -> (forall k', In k' seen -> In k' names) ->
  existsb (Nat.eqb (index_of names k)) (map (index_of names) seen)
  = existsb (String.eqb k) seen.
Proof.
  intros Hk. induction seen as [|x rest IH]; intros Hin; simpl.
  - reflexivity.
  - rewrite IH by (intros k' Hk'; apply Hin; now right). f_equal.
    destruct (String.eqb_spec k x) as [->|Hne].
    + apply Nat.eqb_refl.
    + apply Nat.eqb_neq. intros E. apply Hne.
      apply (index_of_inj names); auto. apply Hin. now left.
Qed.

Lemma unique_from_index (names seen labels : list string) :
  (forall k, In k seen -> In k names) ->
  (forall k, In k labels -> In k names) ->
  unique_from (map (index_of names) seen) (map (index_of names) labels)
  = map (index_of names) (first_labels_from seen labels).
Proof.
  revert seen. induction labels as [|k rest IH]; intros seen Hs Hl; simpl.
  - reflexivity.
  - rewrite existsb_index_of by (auto; apply Hl; now left).
    destruct (existsb (String.eqb k) seen).
    + apply IH; [assumption | intros k' Hk'; apply Hl; now right].
    + simpl. f_equal.
      apply (IH (k :: seen)).
      * intros k' [<-|Hk']; [apply Hl; now left | auto].
      * intros k' Hk'. apply Hl. now right.
Qed.

(** [df[labels]] on a frame without repeated names. *)
Lemma getitem_list_select (df : DataFrame) (labels : list string) :
  NoDup (columns df) -> (forall k, In k labels -> In k (columns df)) ->
  getitem_list df labels
  = Some (mkDataFrame (n_rows df) (select (cols df) labels)).
Proof.
  intros Hnd Hin. unfold getitem_list, iloc_columns.
  rewrite get_indexer_for_index by assumption.
  unfold columns. now rewrite take_select.
Qed.

(** The columns [melt] keeps, on a frame without repeated names. *)
Lemma melt_cut_select (df : DataFrame) (labels : list string) :
  (forall k, In k labels -> In k (columns df)) ->
  iloc_columns df (unique (map (index_of (columns df)) labels))
  = Some (mkDataFrame (n_rows df)
            (select (cols df) (first_labels_from [] labels))).
Proof.
  intros Hin. unfold iloc_columns, unique.
  pose proof (unique_from_index (columns df) [] labels) as U.
  simpl in U. rewrite U by (tauto || assumption). clear U.
  unfold columns. rewrite take_select; [reflexivity|].
  intros k Hk. apply first_labels_In in Hk. apply Hin. tauto.
Qed.

End Selection.

(** ** The melted table *)

Section Dicts.

Variables (k : string) (s : Series).

Lemma dict_get_replace (cs : list column) :
  existsb (fun c => String.eqb (fst c) k) cs = true ->
  dict_get (map (fun c => if String.eqb (fst c) k then (k, s) else c) cs) k
  = Some s.
Proof.
  induction cs as [|[k' s'] rest IH]; simpl; [discriminate|].
  destruct (String.eqb_spec k' k) as [->|Hne]; simpl.
  - now rewrite String.eqb_refl.
  - apply String.eqb_neq in Hne. now rewrite Hne.
Qed.

Lemma dict_get_replace_other (cs : list column) (k' : string) :
  k' <> k ->
  dict_get (map (fun c => if String.eqb (fst c) k then (k, s) else c) cs) k'
  = dict_get cs k'.
Proof.
  intros Hk. induction cs as [|[k2 s2] rest IH]; simpl; [reflexivity|].
  destruct (String.eqb_spec k2 k) as [->|Hne]; simpl.
  - apply not_eq_sym in Hk. apply String.eqb_neq in Hk. now rewrite Hk.
  - now rewrite IH.
Qed.

Lemma dict_get_app_new (cs : list column) :
  existsb (fun c => String.eqb (fst c) k) cs = false ->
  dict_get (cs ++ [(k, s)]) k = Some s.
Proof.
  induction cs as [|[k' s'] rest IH]; simpl.
  - now rewrite String.eqb_refl.
  - intros E. apply orb_false_iff in E. destruct E as [E1 E2].
    rewrite E1. auto.
Qed.

Lemma dict_get_app_other (cs : list column) (k' : string) :
  k' <> k -> dict_get (cs ++ [(k, s)]) k' = dict_get cs k'.
Proof.
  intros Hk. induction cs as [|[k2 s2] rest IH]; simpl.
  - apply not_eq_sym in Hk. apply String.eqb_neq in Hk. now rewrite Hk.
  - now rewrite IH.
Qed.

End Dicts.

Section Extraction.

Variable key : string.
Variable D : DataFrame.
Hypothesis D_NoDup : NoDup (columns D).

Let keyed : DataFrame := setitem D "report_id" (SStr key).

Lemma setitem_n_rows : n_rows keyed = n_rows D.
Proof.
  unfold keyed, setitem. now destruct (has_column D "report_id").
Qed.

Lemma has_column_In (df : DataFrame) (k : string) :
  has_column df k = true <-> In k (columns df).
Proof.
  unfold has_column, columns.
  induction (cols df) as [|[k' s'] rest IH]; simpl;
    [split; [discriminate|tauto]|].
  rewrite orb_true_iff, IH.
  destruct (String.eqb_spec k' k); split; intros [H|H]; auto; congruence.
Qed.

Lemma setitem_columns :
  columns keyed
  = if has_column D "report_id"
    then columns D else columns D ++ ["report_id"].
Proof.
  unfold keyed, setitem, columns.
  destruct (has_column D "report_id"); simpl.
  - rewrite map_map. apply map_ext. intros [k s]. simpl.
    destruct (String.eqb_spec k "report_id"); simpl; congruence.
  - now rewrite map_app.
Qed.

Lemma setitem_NoDup : NoDup (columns keyed).
Proof.
  rewrite setitem_columns.
  destruct (has_column D "report_id") eqn:E; [assumption|].
  apply NoDup_app; [assumption | repeat constructor; simpl; tauto |].
  intros k Hk [<-|[]].
  apply has_column_In in Hk. congruence.
Qed.

Lemma setitem_has_key : In "report_id" (columns keyed).
Proof.
  rewrite setitem_columns.
  destruct (has_column D "report_id") eqn:E.
  - now apply has_column_In in E.
  - apply in_or_app. right. now left.
Qed.

Lemma setitem_keeps (k : string) : In k (columns D) -> In k (columns keyed).
Proof.
  rewrite setitem_columns.
  destruct (has_column D "report_id"); [tauto|]. intros H. apply in_or_app. tauto.
Qed.

Lemma setitem_get_key :
  get (cols keyed) "report_id" = Object (repeat (SStr key) (n_rows D)).
Proof.
  unfold get, keyed, setitem.
  destruct (has_column D "report_id") eqn:E; cbn [cols].
  - now rewrite dict_get_replace.
  - now rewrite dict_get_app_new.
Qed.

Lemma setitem_get_other (k : string) :
  k <> "report_id" -> get (cols keyed) k = get (cols D) k.
Proof.
  intros Hk. unfold get, keyed, setitem.
  destruct (has_column D "report_id"); cbn [cols].
  - now rewrite dict_get_replace_other.
  - now rewrite dict_get_app_other.
Qed.

Lemma filter_name_select_absent (cs : list column) (vars : list string)
  (k : string) :
  ~ In k vars ->
  filter (fun c => String.eqb (fst c) k) (select cs vars) = []
  /\ filter (fun c => negb (String.eqb (fst c) k)) (select cs vars)
     = select cs vars.
Proof.
  induction vars as [|x rest IH]; simpl; [auto|].
  intros H. destruct (String.eqb_spec x k) as [->|Hne]; [tauto|]. simpl.
  destruct IH as [IH1 IH2]; [tauto|]. split; [assumption | now f_equal].
Qed.

Lemma unpivoted_not_key (locs : list string) (k : string) :
  In k (unpivoted locs) -> In k locs /\ k <> "report_id".
Proof.
  unfold unpivoted. rewrite first_labels_In. simpl. intuition congruence.
Qed.

Variables locs ids : list string.
Hypothesis locs_columns : forall k, In k locs -> In k (columns D).
Hypothesis ids_columns : forall k, In k ids -> In k (columns D).

(** What the four statements of the [if] branch compute: the long table on
    "report_id", "variable" and "value", unless a column "value" is in the
    way or the three arrays differ in length. *)
Lemma extract_melted :
  extract key D locs ids
  = if existsb (String.eqb "value") (locs ++ ids) then None
    else from_dict (melted_columns key D locs)
           ["report_id"; "variable"; "value"].
Proof.
  unfold extract. fold keyed.
  set (L := ["report_id"] ++ locs ++ ids).
  assert (HL : forall k, In k L -> In k (columns keyed)).
  { intros k [<-|Hk]; [apply setitem_has_key|].
    apply setitem_keeps. simpl in Hk. apply in_app_or in Hk.
    destruct Hk; auto. }
  rewrite getitem_list_select by (apply setitem_NoDup || assumption).
  rewrite loc_columns_not_duplicated. cbn [cols n_rows].
  rewrite keep_first_select.
  set (FL := first_labels_from [] L).
  unfold melt. unfold columns at 1. cbn [cols]. rewrite select_names.
  assert (EV : existsb (String.eqb "value") FL
               = existsb (String.eqb "value") (locs ++ ids)).
  { destruct (existsb (String.eqb "value") (locs ++ ids)) eqn:E.
    - apply existsb_eqb_In. apply first_labels_In. split; [|simpl; tauto].
      right. now apply existsb_eqb_In.
    - apply existsb_eqb_not_In. intros H. apply first_labels_In in H.
      destruct H as [[H|H] _]; [discriminate|].
      cbn [app] in H. apply existsb_eqb_In in H. congruence. }
  rewrite EV. destruct (existsb (String.eqb "value") (locs ++ ids));
    [reflexivity|].
  assert (HF : forall k, In k (["report_id"] ++ locs) -> In k FL).
  { intros k Hk. apply first_labels_In. split; [|simpl; tauto].
    destruct Hk as [<-|Hk]; [now left|].
    unfold L. cbn [app] in *. right. apply in_or_app. now left. }
  assert (EF : columns (mkDataFrame (n_rows keyed) (select (cols keyed) FL))
               = FL).
  { unfold columns. cbn [cols]. apply select_names. }
  rewrite get_indexer_for_index
    by (rewrite EF; apply first_labels_NoDup || exact HF).
  rewrite melt_cut_select by (rewrite EF; exact HF).
  cbn [cols n_rows].
  rewrite select_select
    by (intros k Hk; apply first_labels_In in Hk; apply HF; tauto).
  change (first_labels_from [] (["report_id"] ++ locs))
    with ("report_id" :: unpivoted locs).
  cbn [select map].
  fold (select (cols keyed) (unpivoted locs)).
  rewrite setitem_get_key.
  rewrite (select_ext (cols keyed) (cols D))
    by (intros k Hk; apply setitem_get_other;
        now apply unpivoted_not_key in Hk).
  assert (Hr : ~ In "report_id" (unpivoted locs)).
  { intros H. apply unpivoted_not_key in H. tauto. }
  destruct (filter_name_select_absent (cols D) _ _ Hr) as [F1 F2].
  unfold pop_id_vars, pop, getitem. cbn [cols n_rows filter fst snd].
  rewrite String.eqb_refl. cbn [negb]. rewrite F1, F2.
  cbn [fst snd cols n_rows length dict_set String.eqb Ascii.eqb Bool.eqb
       Nat.sub app].
  unfold melted_columns, from_dict.
  cbn [dict_get_all dict_get String.eqb Ascii.eqb Bool.eqb fst snd map].
  rewrite Nat.sub_0_r, select_length, setitem_n_rows.
  rewrite select_variable, select_values. reflexivity.
Qed.

End Extraction.

(** ** The median of the rendered lengths *)

Section Median.

Lemma insert_length (x : nat) (l : list nat) :
  length (insert x l) = S (length l).
Proof.
  induction l as [|y l IH]; simpl; [reflexivity|].
  destruct (x <=? y)%nat; simpl; [reflexivity | now rewrite IH].
Qed.

Lemma sort_length (l : list nat) : length (sort l) = length l.
Proof.
  induction l as [|x l IH]; simpl; [reflexivity|].
  now rewrite insert_length, IH.
Qed.

Lemma insert_Forall (P : nat -> Prop) (x : nat) (l : list nat) :
  P x -> Forall P l -> Forall P (insert x l).
Proof.
  intros Hx Hl. induction Hl as [|y l Hy Hl IH]; simpl.
  - now constructor.
  - destruct (x <=? y)%nat; repeat constructor; assumption.
Qed.

Lemma insert_sorted (x : nat) (l : list nat) :
  StronglySorted le l -> StronglySorted le (insert x l).
Proof.
  induction 1 as [|y l Hs IH Hy]; simpl.
  - repeat constructor.
  - destruct (Nat.leb_spec x y) as [Hle|Hlt].
    + constructor; [now constructor|].
      constructor; [assumption|].
      eapply Forall_impl; [|exact Hy]. intros z Hz. simpl in Hz. lia.
    + constructor; [assumption|].
      apply insert_Forall; [lia | assumption].
Qed.

Lemma sort_sorted (l : list nat) : StronglySorted le (sort l).
Proof.
  induction l as [|x l IH]; simpl; [constructor | now apply insert_sorted].
Qed.

Lemma insert_count (p : nat -> bool) (x : nat) (l : list nat) :
  length (filter p (insert x l)) = length (filter p (x :: l)).
Proof.
  induction l as [|y l IH]; simpl; [reflexivity|].
  destruct (x <=? y)%nat; simpl; [reflexivity|].
  simpl in IH. destruct (p y), (p x); simpl in *; lia.
Qed.

Lemma sort_count (p : nat -> bool) (l : list nat) :
  length (filter p (sort l)) = length (filter p l).
Proof.
  induction l as [|x l IH]; simpl; [reflexivity|].
  rewrite insert_count. simpl. destruct (p x); simpl; now rewrite IH.
Qed.

(** In a sorted list the short values come first: a long value at
    position [i] leaves at most [i] short ones. *)
Lemma sorted_short_prefix (s : list nat) (i : nat) :
  StronglySorted le s -> (i < length s)%nat -> (5 <= nth i s O)%nat ->
  (length (filter short s) <= i)%nat.
Proof.
  intros Hs. revert i. induction Hs as [|x t Hs IH Hx]; intros i; simpl.
  - lia.
  - destruct i as [|j]; intros Hi Hn.
    + assert (E : filter short t = []).
      { clear IH Hs Hi. induction Hx as [|y t Hy Hx IH]; simpl; [reflexivity|].
        unfold short at 1. destruct (Nat.ltb_spec y 5); [lia | assumption]. }
      rewrite E. unfold short. destruct (Nat.ltb_spec x 5); simpl; lia.
    + specialize (IH j). destruct (short x); simpl; lia.
Qed.

Lemma Qle_bool_5_mean (a b : nat) :
  Qle_bool 5 ((inject_Z (Z.of_nat a) + inject_Z (Z.of_nat b)) / 2)%Q = true
  <-> (10 <= a + b)%nat.
Proof.
  rewrite Qle_bool_iff. unfold Qle, Qdiv, Qmult, Qplus, Qinv, inject_Z.
  simpl. lia.
Qed.

Lemma Qle_bool_5_inject (a : nat) :
  Qle_bool 5 (inject_Z (Z.of_nat a)) = true <-> (5 <= a)%nat.
Proof.
  rewrite Qle_bool_iff. unfold Qle, inject_Z. simpl. lia.
Qed.

(** A median of 5 or more leaves at most half of the values short. *)
Lemma median_ge_5_short (l : list nat) :
  ge (median l) 5 = true -> (2 * length (filter short l) <= length l)%nat.
Proof.
  unfold median, ge. rewrite <- (sort_count short l), <- (sort_length l).
  pose proof (sort_sorted l) as Hs.
  set (s := sort l) in *. set (n := length s).
  destruct (Nat.eqb_spec n 0) as [|Hn]; [discriminate|].
  pose proof (Nat.div_mod_eq n 2) as Hdiv.
  destruct (Nat.even n) eqn:Ev.
  - rewrite Qle_bool_5_mean. intros H.
    apply Nat.even_spec in Ev. destruct Ev as [h Eh].
    assert (Eh2 : (n / 2 = h)%nat)
      by (rewrite Eh, Nat.mul_comm; apply Nat.div_mul; lia).
    rewrite Eh2 in H.
    destruct (Nat.le_gt_cases 5 (nth h s O)) as [Hb|Hb].
    + pose proof (sorted_short_prefix s h Hs). fold n in H0. lia.
    + pose proof (sorted_short_prefix s (h - 1) Hs). fold n in H0. lia.
  - rewrite Qle_bool_5_inject. intros H.
    assert (Od : Nat.odd n = true)
      by (rewrite <- Nat.negb_even, Ev; reflexivity).
    apply Nat.odd_spec in Od. destruct Od as [h Eh].
    assert (Eh2 : (n / 2 = h)%nat).
    { rewrite Eh. rewrite Nat.mul_comm, Nat.div_add_l by lia. simpl. lia. }
    rewrite Eh2 in H.
    pose proof (sorted_short_prefix s h Hs). fold n in H0. lia.
Qed.


Lemma missing_are_short (xs : list float64) :
  (count_missing xs
   <= length (filter short (map String.length (astype_str (Float64 xs)))))%nat.
Proof.
  unfold count_missing, astype_str. simpl.
  induction xs as [|x xs IH]; simpl; [lia|].
  destruct x; simpl; [lia | |];
    match goal with
    | |- context [if short ?n then _ else _] => destruct (short n)
    end; simpl; lia.
Qed.

End Median.

(** ** One turn of the loop *)

Section Iteration.

Lemma coordinate_columns_In (df : DataFrame) (k : string) :
  In k (coordinate_columns df) <->
  exists s, In (k, s) (cols df) /\ coordinate_column (k, s) = true.
Proof.
  unfold coordinate_columns. rewrite in_map_iff. split.
  - intros [[k' s] [E H]]. simpl in E. subst k'.
    apply filter_In in H. eauto.
  - intros [s [H1 H2]]. exists (k, s). split; [reflexivity|].
    apply filter_In. auto.
Qed.

Lemma coordinate_columns_incl (df : DataFrame) (k : string) :
  In k (coordinate_columns df) -> In k (columns df).
Proof.
  intros H. apply coordinate_columns_In in H. destruct H as [s [H _]].
  unfold columns. now apply (in_map fst) in H.
Qed.

Lemma potential_ids_incl (df : DataFrame) (k : string) :
  In k (potential_ids df) -> In k (columns df).
Proof.
  unfold potential_ids. intros H. apply filter_In in H. tauto.
Qed.

Lemma value_not_potential_id (df : DataFrame) (locs : list string) :
  existsb (String.eqb "value") (locs ++ potential_ids df)
  = existsb (String.eqb "value") locs.
Proof.
  rewrite existsb_app.
  replace (existsb (String.eqb "value") (potential_ids df)) with false;
    [apply orb_false_r|].
  symmetry. apply existsb_eqb_not_In. unfold potential_ids. intros H.
  apply filter_In in H. destruct H as [_ H]. vm_compute in H. discriminate.
Qed.

Lemma from_dict_melted (key : string) (df : DataFrame) (locs : list string) :
  from_dict (melted_columns key df locs) ["report_id"; "variable"; "value"]
  = let cs := melted_columns key df locs in
    let sizes := map (fun c : column => size (snd c)) cs in
    if all_equal sizes then Some (mkDataFrame (hd O sizes) cs) else None.
Proof.
  unfold from_dict, melted_columns.
  cbn [dict_get_all dict_get String.eqb Ascii.eqb Bool.eqb fst snd map].
  reflexivity.
Qed.

(** What the four statements of the [if] branch give on a normalised
    frame and its Coordinate Columns. *)
Lemma extract_normalized (key : string) (df : DataFrame) :
  let D := normalized df in
  extract key D (coordinate_columns D) (potential_ids D)
  = if existsb (String.eqb "value") (coordinate_columns D) then None
    else
      let cs := melted_columns key D (coordinate_columns D) in
      let sizes := map (fun c : column => size (snd c)) cs in
      if all_equal sizes then Some (mkDataFrame (hd O sizes) cs) else None.
Proof.
  intros D.
  rewrite extract_melted;
    [| apply normalized_NoDup | apply coordinate_columns_incl
     | apply potential_ids_incl ].
  rewrite value_not_potential_id, from_dict_melted. reflexivity.
Qed.

Variable read_csv : string -> option DataFrame.

(** The three ways one turn of the loop can end. *)
Lemma iteration_cases (st : state) (key value : string) :
  iteration read_csv st (key, value)
  = match read_csv value with
    | None =>
        mkState (sub_df_list st) (printed st ++ [Error_reading_file key])
    | Some df =>
        let D := normalized df in
        match coordinate_columns D with
        | [] =>
            mkState (sub_df_list st) (printed st ++ [No_locations_found key])
        | _ :: _ =>
            match extract key D (coordinate_columns D) (potential_ids D) with
            | Some sub_df_a =>
                mkState (sub_df_list st ++ [sub_df_a])
                        (printed st ++ [Locations_Extracted key])
            | None =>
                mkState (sub_df_list st)
                        (printed st ++ [Error_reading_file key])
            end
        end
    end.
Proof.
  unfold iteration, try_block.
  destruct (read_csv value) as [df|]; [|reflexivity].
  rewrite drop_duplicate_columns_normalized.
  rewrite locations_loop_coordinate_columns by apply normalized_NoDup.
  cbn zeta.
  destruct (coordinate_columns (normalized df)) as [|k rest] eqn:E.
  - reflexivity.
  - cbn [length Nat.ltb Nat.leb Nat.eqb].
    destruct (extract key (normalized df) (k :: rest)
                (potential_ids (normalized df))); reflexivity.
Qed.

(** The loop only ever appends: running it from any state gives what it
    gives from the empty state, after what was there. *)
Lemma iteration_append (st : state) (item : string * string) :
  let st0 := iteration read_csv (mkState [] []) item in
  iteration read_csv st item
  = mkState (sub_df_list st ++ sub_df_list st0) (printed st ++ printed st0).
Proof.
  destruct item as [key value]. cbn zeta. rewrite !iteration_cases.
  destruct (read_csv value) as [df|]; cbn zeta;
    [|now rewrite app_nil_r].
  destruct (coordinate_columns (normalized df)); [now rewrite app_nil_r|].
  destruct (extract key (normalized df) _ _); simpl;
    [reflexivity | now rewrite app_nil_r].
Qed.

Lemma fold_iteration_append (other : list (string * string)) (st : state) :
  let st0 := stage3 read_csv other in
  fold_left (iteration read_csv) other st
  = mkState (sub_df_list st ++ sub_df_list st0) (printed st ++ printed st0).
Proof.
  unfold stage3. revert st.
  induction other as [|item rest IH]; intros st; cbn zeta in *; simpl.
  - rewrite !app_nil_r. now destruct st.
  - rewrite IH. rewrite (IH (iteration read_csv (mkState [] []) item)).
    rewrite (iteration_append st item). simpl.
    now rewrite !app_assoc.
Qed.

Lemma stage3_app (pre post : list (string * string)) :
  stage3 read_csv (pre ++ post)
  = mkState
      (sub_df_list (stage3 read_csv pre) ++ sub_df_list (stage3 read_csv post))
      (printed (stage3 read_csv pre) ++ printed (stage3 read_csv post)).
Proof.
  unfold stage3 at 1. rewrite fold_left_app.
  fold (stage3 read_csv pre). apply fold_iteration_append.
Qed.

End Iteration.

(** ** The size and the cells of the long table *)

Section Melted.

Lemma concat_repeat_length {A : Type} (l : list A) (k : nat) :
  length (concat (repeat l k)) = (k * length l)%nat.
Proof.
  induction k as [|k IH]; simpl; [reflexivity|].
  now rewrite length_app, IH.
Qed.

Lemma variable_length (vars : list string) (n : nat) :
  length (flat_map (fun k => repeat (SStr k) n) vars) = (length vars * n)%nat.
Proof.
  induction vars as [|k rest IH]; simpl; [reflexivity|].
  now rewrite length_app, repeat_length, IH.
Qed.



Lemma concat_repeat_Forall {A : Type} (P : A -> Prop) (l : list A) (k : nat) :
  Forall P l -> Forall P (concat (repeat l k)).
Proof.
  intros H. induction k as [|k IH]; simpl; [constructor|].
  apply Forall_app. auto.
Qed.







End Melted.

(** ** The table appended for one dataset *)

Section Appended.

Variable key : string.
Variable df : DataFrame.

Let D : DataFrame := normalized df.
Let cc : list string := coordinate_columns D.

Lemma melted_sizes :
  map (fun c : column => size (snd c)) (melted_columns key D cc)
  = [ (length (unpivoted cc) * n_rows df)%nat;
      (length (unpivoted cc) * n_rows df)%nat;
      length (concat (map (cells D) (unpivoted cc))) ].
Proof.
  unfold melted_columns, size. cbn [map snd values tile].
  now rewrite concat_repeat_length, repeat_length, variable_length.
Qed.

(** When the table is built, it is the long table, with as many rows as
    there are cells in the unpivoted columns. *)
Lemma extract_Some (sub_df_a : DataFrame) :
  extract key D cc (potential_ids D) = Some sub_df_a ->
  existsb (String.eqb "value") cc = false
  /\ sub_df_a
     = mkDataFrame (length (concat (map (cells D) (unpivoted cc))))
                   (melted_columns key D cc)
  /\ (length (unpivoted cc) * n_rows df)%nat
     = length (concat (map (cells D) (unpivoted cc))).
Proof.
  unfold D, cc. rewrite extract_normalized. cbn zeta. fold D. fold cc.
  destruct (existsb (String.eqb "value") cc); [discriminate|].
  rewrite melted_sizes. cbn [all_equal forallb hd].
  rewrite Nat.eqb_refl. cbn [andb].
  destruct (Nat.eqb_spec (length (unpivoted cc) * n_rows df)
              (length (concat (map (cells D) (unpivoted cc)))))
    as [E|]; [|discriminate].
  intros [= <-]. rewrite <- E. auto.
Qed.


End Appended.

(** * Main results *)







(** C3 fails on the code: for the table Easting=451234.56,
    Northing=7845321.12, Hole_ID="DH001" the column "hole_id" is found as
    an identifier column, but the two records that are produced have the
    fields "report_id", "variable" and "value" only. *)
Theorem hole_id_not_carried :
  let df := collar_with_hole_id in
  let st := stage3 (serve "url" df) [("CR000001", "url")] in
  potential_ids (normalized df) = ["hole_id"]
  /\ st = mkState
            [mkDataFrame 2
               [("report_id", Object [SStr "CR000001"; SStr "CR000001"]);
                ("variable", Object [SStr "easting"; SStr "northing"]);
                ("value", Object [SFloat easting_value;
                                  SFloat northing_value])]]
            [Locations_Extracted "CR000001"]
  /\ forall sub_df_a,
       In sub_df_a (sub_df_list st) -> has_column sub_df_a "hole_id" = false.
Proof.
  cbn zeta. split; [vm_compute; reflexivity|].
  assert (E : stage3 (serve "url" collar_with_hole_id) [("CR000001", "url")]
              = mkState
                  [mkDataFrame 2
                     [("report_id", Object [SStr "CR000001"; SStr "CR000001"]);
                      ("variable", Object [SStr "easting"; SStr "northing"]);
                      ("value", Object [SFloat easting_value;
                                        SFloat northing_value])]]
                  [Locations_Extracted "CR000001"])
    by (vm_compute; reflexivity).
  rewrite E. split; [reflexivity|].
  intros a [<-|[]]. vm_compute. reflexivity.
Qed.




Lemma rename_lower_In (cs : list column) (k : string) (s : Series) :
  In (k, s) (rename_lower cs) -> exists k', In (k', s) cs /\ k = lower k'.
Proof.
  unfold rename_lower. rewrite in_map_iff.
  intros [[k' s'] [E H]]. injection E as <- <-. eauto.
Qed.

(** A table whose numeric columns all stay below a median rendered
    length of 5 ends the turn with "No locations found". *)
Lemma iteration_without_coordinates (read_csv : string -> option DataFrame)
  (st : state) (key value : string) (df : DataFrame) :
  read_csv value = Some df ->
  (forall k s,
     In (k, s) (cols df) -> is_number s = true ->
     ge (median (map String.length (astype_str s))) 5 = false) ->
  iteration read_csv st (key, value)
  = mkState (sub_df_list st) (printed st ++ [No_locations_found key]).
Proof.
  intros R H. rewrite iteration_cases, R. cbn zeta.
  destruct (coordinate_columns (normalized df)) as [|k rest] eqn:CC;
    [reflexivity|].
  exfalso.
  assert (Hk : In k (coordinate_columns (normalized df)))
    by (rewrite CC; now left).
  apply coordinate_columns_In in Hk. destruct Hk as [s [Hin Hc]].
  apply normalized_incl, rename_lower_In in Hin.
  destruct Hin as [k' [Hin _]].
  unfold coordinate_column, qualifies, median_length in Hc. cbn [snd] in Hc.
  apply andb_true_iff in Hc. destruct Hc as [Hn Hq].
  rewrite (H k' s Hin Hn) in Hq. discriminate.
Qed.

(** C5.  When no numeric column of the table that was read reaches a
    median rendered length of 5, "No locations found" is printed with the
    identifier of the dataset and nothing is appended, so that a run over
    any list of datasets collects the same tables with or without this
    one.  The table ID=42, Depth=120 is such a table. *)
Theorem no_locations_found (read_csv : string -> option DataFrame)
  (st : state) (key value : string) (df : DataFrame) :
  read_csv value = Some df ->
  (forall k s,
     In (k, s) (cols df) -> is_number s = true ->
     ge (median (map String.length (astype_str s))) 5 = false) ->
  iteration read_csv st (key, value)
  = mkState (sub_df_list st) (printed st ++ [No_locations_found key])
  /\ forall pre post,
       sub_df_list (stage3 read_csv (pre ++ (key, value) :: post))
       = sub_df_list (stage3 read_csv (pre ++ post)).
Proof.
  intros R H.
  split; [now apply (iteration_without_coordinates read_csv st key value df)|].
  intros pre post.
  change ((key, value) :: post) with ([(key, value)] ++ post).
  rewrite !stage3_app. cbn [sub_df_list].
  unfold stage3 at 2. cbn [fold_left].
  now rewrite (iteration_without_coordinates read_csv _ key value df).
Qed.

(** C5 at the table ID=42, Depth=120. *)
Lemma no_locations_found_witness :
  iteration (serve "url" collar_without_coordinates) (mkState [] [])
    ("CR000002", "url")
  = mkState [] [No_locations_found "CR000002"].
Proof.
  refine (proj1 (no_locations_found (serve "url" collar_without_coordinates)
                   (mkState [] []) "CR000002" "url"
                   collar_without_coordinates _ _)).
  - reflexivity.
  - intros k s [E|[E|[]]] _; injection E as _ <-; vm_compute; reflexivity.
Defined.

(** C6.  When reading the resource of a dataset raises, "Error reading
    file" is printed with its identifier after the lines of the datasets
    before it, nothing is appended for it, and the datasets after it are
    processed as they are when the loop is run on them alone. *)
Theorem error_reading_file (read_csv : string -> option DataFrame)
  (pre post : list (string * string)) (key value : string) :
  read_csv value = None ->
  let st := stage3 read_csv (pre ++ (key, value) :: post) in
  printed st
  = printed (stage3 read_csv pre) ++ [Error_reading_file key]
    ++ printed (stage3 read_csv post)
  /\ sub_df_list st
     = sub_df_list (stage3 read_csv pre) ++ sub_df_list (stage3 read_csv post)
  /\ sub_df_list st = sub_df_list (stage3 read_csv (pre ++ post)).
Proof.
  intros R. cbn zeta.
  assert (E : stage3 read_csv [(key, value)]
              = mkState [] [Error_reading_file key]).
  { unfold stage3. cbn [fold_left]. now rewrite iteration_cases, R. }
  change ((key, value) :: post) with ([(key, value)] ++ post).
  rewrite !stage3_app, E. cbn [sub_df_list printed app].
  auto.
Qed.

(** C6 on a run of three datasets of which the second cannot be read. *)
Lemma error_reading_file_witness :
  let read_csv := serve "url" collar_with_hole_id in
  let st := stage3 read_csv
              ([("CR000001", "url")] ++ ("CR000002", "broken")
               :: [("CR000003", "url")]) in
  printed st
  = [Locations_Extracted "CR000001"; Error_reading_file "CR000002";
     Locations_Extracted "CR000003"]
  /\ length (sub_df_list st) = 2%nat.
Proof.
  cbn zeta.
  destruct (error_reading_file (serve "url" collar_with_hole_id)
              [("CR000001", "url")] [("CR000003", "url")]
              "CR000002" "broken") as (P & L & _).
  - reflexivity.
  - rewrite P, L. vm_compute. split; reflexivity.
Defined.

Lemma rename_lower_names (cs : list column) :
  map fst (rename_lower cs) = map lower (map fst cs).
Proof.
  unfold rename_lower. rewrite !map_map. reflexivity.
Qed.

Lemma names_dict_get (cs : list column) (k : string) :
  In k (map fst cs) <-> exists s, dict_get cs k = Some s.
Proof.
  split; [apply dict_get_names|].
  intros [s H]. apply dict_get_In in H. now apply (in_map fst) in H.
Qed.

(** C7.  Normalising the column names lower-cases every name and then
    drops the columns whose name has been met before: what is kept is the
    list of renamed columns with duplicate names removed, first occurrence
    kept, in the original order; no name is left twice, no name is lost,
    and a name stands for the first column that carries it.  With the
    columns "Easting" and "easting" one column "easting" is left, the
    first, and it is the one Coordinate Column. *)
Theorem column_names_normalized :
  (forall df,
     exists D,
       drop_duplicate_columns df = Some D
       /\ n_rows D = n_rows df
       /\ cols D = remove_duplicate_names (rename_lower (cols df))
       /\ NoDup (columns D)
       /\ (forall k, In k (columns D) <-> In k (map lower (columns df)))
       /\ (forall k,
             dict_get (cols D) k = dict_get (rename_lower (cols df)) k))
  /\ exists D,
       drop_duplicate_columns collar_with_easting_twice = Some D
       /\ cols D = [("easting", Float64 [easting_value])]
       /\ locations_loop D (numbered_columns D) [] = Some ["easting"].
Proof.
  split.
  - intros df. exists (normalized df).
    split; [apply drop_duplicate_columns_normalized|].
    split; [reflexivity|]. split; [reflexivity|].
    split; [apply normalized_NoDup|].
    split; [|apply normalized_first].
    intros k. unfold columns. rewrite <- rename_lower_names.
    rewrite !names_dict_get. now rewrite normalized_first.
  - eexists. split; [vm_compute; reflexivity|].
    split; vm_compute; reflexivity.
Qed.

Lemma app_single_neq {A : Type} (l : list A) (x : A) : l <> l ++ [x].
Proof.
  intros H. apply (f_equal (@length A)) in H.
  rewrite length_app in H. simpl in H. lia.
Qed.

(** C8.  The table appended for a dataset has the fields "report_id",
    "variable" and "value", and the "report_id" cell of every record is
    the identifier of that dataset. *)
Theorem report_id_carried (read_csv : string -> option DataFrame)
  (st : state) (key value : string) (sub_df_a : DataFrame) :
  sub_df_list (iteration read_csv st (key, value))
  = sub_df_list st ++ [sub_df_a] ->
  columns sub_df_a = ["report_id"; "variable"; "value"]
  /\ length (cells sub_df_a "report_id") = n_rows sub_df_a
  /\ Forall (fun v => v = SStr key) (cells sub_df_a "report_id").
Proof.
  rewrite iteration_cases.
  destruct (read_csv value) as [df|]; cbn zeta;
    [|intros H; now apply app_single_neq in H].
  destruct (coordinate_columns (normalized df)) as [|k rest] eqn:CC;
    [intros H; now apply app_single_neq in H|].
  rewrite <- CC.
  destruct (extract key (normalized df) _ _) as [a|] eqn:EX;
    [|intros H; now apply app_single_neq in H].
  cbn [sub_df_list]. intros H. apply app_inv_head in H. injection H as ->.
  apply extract_Some in EX. destruct EX as (_ & -> & N).
  split; [reflexivity|].
  unfold cells, get, melted_columns.
  cbn [cols n_rows dict_get String.eqb Ascii.eqb Bool.eqb values tile].
  split.
  - now rewrite concat_repeat_length, repeat_length.
  - apply concat_repeat_Forall. apply Forall_forall.
    intros v Hv. now apply repeat_spec in Hv.
Qed.

(** C8 at Easting=451234.56, Northing=7845321.12, Hole_ID="DH001", read
    as dataset CR000001. *)
Lemma report_id_carried_witness :
  Forall (fun v => v = SStr "CR000001")
    [SStr "CR000001"; SStr "CR000001"].
Proof.
  exact (proj2 (proj2
    (report_id_carried (serve "url" collar_with_hole_id) (mkState [] [])
       "CR000001" "url"
       (mkDataFrame 2
          [("report_id", Object [SStr "CR000001"; SStr "CR000001"]);
           ("variable", Object [SStr "easting"; SStr "northing"]);
           ("value", Object [SFloat easting_value; SFloat northing_value])])
       eq_refl))).
Defined.

(** C9, as stated, fails: the numeric column Hole_Depth=120.5 is both a
    candidate column and an identifier column. *)
Lemma numeric_hole_column_in_both :
  let D := normalized collar_with_hole_depth in
  numbered_columns D = ["hole_depth"]
  /\ potential_ids D = ["hole_depth"]
  /\ ~ (forall k, ~ (In k (numbered_columns D) /\ In k (potential_ids D))).
Proof.
  cbn zeta.
  assert (E1 : numbered_columns (normalized collar_with_hole_depth)
               = ["hole_depth"]) by (vm_compute; reflexivity).
  assert (E2 : potential_ids (normalized collar_with_hole_depth)
               = ["hole_depth"]) by (vm_compute; reflexivity).
  rewrite E1, E2. repeat split.
  intros H. apply (H "hole_depth"). split; now left.
Qed.

(** C9 (amended).  The candidate columns are the numeric-typed columns
    and the identifier columns are the columns whose name contains
    "hole"; the two are chosen independently, and a column is in both
    exactly when it is numeric-typed and its name contains "hole". *)
Theorem candidate_and_identifier_columns (df : DataFrame) :
  exists D,
    drop_duplicate_columns df = Some D
    /\ (forall k,
          In k (numbered_columns D) <->
          exists s, In (k, s) (cols D) /\ is_number s = true)
    /\ (forall k,
          In k (potential_ids D) <->
          In k (columns D) /\ contains "hole" (lower k) = true)
    /\ (forall k,
          In k (numbered_columns D) /\ In k (potential_ids D) <->
          exists s,
            In (k, s) (cols D) /\ is_number s = true
            /\ contains "hole" (lower k) = true).
Proof.
  exists (normalized df).
  split; [apply drop_duplicate_columns_normalized|].
  assert (N : forall k,
            In k (numbered_columns (normalized df)) <->
            exists s, In (k, s) (cols (normalized df)) /\ is_number s = true).
  { intros k. unfold numbered_columns, select_dtypes_number, columns.
    cbn [cols]. rewrite in_map_iff. split.
    - intros [[k' s] [E H]]. simpl in E. subst k'.
      apply filter_In in H. eauto.
    - intros [s [H1 H2]]. exists (k, s). split; [reflexivity|].
      apply filter_In. auto. }
  assert (I : forall k,
            In k (potential_ids (normalized df)) <->
            In k (columns (normalized df))
            /\ contains "hole" (lower k) = true).
  { intros k. unfold potential_ids. rewrite filter_In. reflexivity. }
  split; [exact N|]. split; [exact I|].
  intros k. rewrite N, I. split.
  - intros [[s [H1 H2]] [_ H3]]. eauto.
  - intros [s [H1 [H2 H3]]]. split; [eauto|]. split; [|assumption].
    unfold columns. now apply (in_map fst) in H1.
Qed.

(** C10, as stated, fails: with 451234.56 and one missing value, half of
    the values are missing, the rendered lengths are 9 and 3, their median
    is 6, and the column is a Coordinate Column. *)
Lemma half_missing_qualifies :
  (length half_missing <= 2 * count_missing half_missing)%nat
  /\ map String.length (astype_str (Float64 half_missing)) = [9; 3]%nat
  /\ ge (median (map String.length (astype_str (Float64 half_missing)))) 5
     = true
  /\ coordinate_columns (mkDataFrame 2 [("easting", Float64 half_missing)])
     = ["easting"].
Proof.
  split; [vm_compute; lia|]. repeat split; vm_compute; reflexivity.
Qed.

(** C10 (amended).  A missing value is rendered as "nan", three
    characters, and takes part in the median: a float column in which
    more than half of the values are missing never reaches a median
    length of 5.  The median of no values is NaN, which is not 5 or more,
    and a table without rows gives "No locations found". *)
Theorem missing_values_and_empty_tables :
  str (SFloat NaN) = "nan"
  /\ (forall xs : list float64,
        (length xs < 2 * count_missing xs)%nat ->
        ge (median (map String.length (astype_str (Float64 xs)))) 5 = false)
  /\ ge (median []) 5 = false
  /\ (forall (read_csv : string -> option DataFrame) st key value df,
        read_csv value = Some df -> well_formed df -> n_rows df = O ->
        iteration read_csv st (key, value)
        = mkState (sub_df_list st) (printed st ++ [No_locations_found key])).
Proof.
  split; [reflexivity|]. split; [|split; [reflexivity|]].
  - intros xs H.
    destruct (ge (median (map String.length (astype_str (Float64 xs)))) 5)
      eqn:E; [|reflexivity].
    apply median_ge_5_short in E.
    pose proof (missing_are_short xs) as M.
    unfold astype_str in E at 2. cbn [values] in E.
    rewrite !length_map in E. lia.
  - intros read_csv st key value df R Hwf Hn.
    apply (iteration_without_coordinates read_csv st key value df R).
    intros k s Hin _.
    unfold well_formed in Hwf. rewrite Forall_forall in Hwf.
    specialize (Hwf _ Hin). cbn [snd] in Hwf. rewrite Hn in Hwf.
    unfold size in Hwf. unfold astype_str.
    destruct (values s); [reflexivity | discriminate].
Qed.

(** The amended C10 at a column with two values missing out of three, and
    at a table with a header line and no rows. *)
Lemma missing_values_and_empty_tables_witness :
  ge (median (map String.length (astype_str (Float64 mostly_missing)))) 5
  = false
  /\ iteration (serve "url" collar_without_rows) (mkState [] [])
       ("CR000004", "url")
     = mkState [] [No_locations_found "CR000004"].
Proof.
  destruct missing_values_and_empty_tables as (_ & M & _ & Z).
  split.
  - apply M. vm_compute. lia.
  - apply (Z (serve "url" collar_without_rows) (mkState [] [])
             "CR000004" "url" collar_without_rows).
    + reflexivity.
    + repeat constructor.
    + reflexivity.
Defined.

(** * Further properties of the notebook *)

Import Portal Templates Search Combined Notions.

(** ** Stage 3 *)

Section Stage3More.

Lemma lower_char_idempotent (c : ascii) :
  lower_char (lower_char c) = lower_char c.
Proof.
  destruct c as [[] [] [] [] [] [] [] []]; vm_compute; reflexivity.
Qed.

Lemma lower_idempotent (s : string) : lower (lower s) = lower s.
Proof.
  induction s as [|c s IH]; simpl; [reflexivity|].
  now rewrite lower_char_idempotent, IH.
Qed.

Lemma keep_first_NoDup_id (seen : list string) (cs : list column) :
  NoDup (map fst cs) -> (forall k, In k (map fst cs) -> ~ In k seen) ->
  keep_first_from seen cs = cs.
Proof.
  revert seen. induction cs as [|c rest IH]; intros seen Hnd Hs; simpl.
  - reflexivity.
  - inversion Hnd as [|? ? Hnot Hnd']; subst.
    replace (existsb (String.eqb (fst c)) seen) with false
      by (symmetry; apply existsb_eqb_not_In; apply Hs; now left).
    f_equal. apply IH; [assumption|].
    intros k Hk [<-|H]; [contradiction|].
    apply (Hs k); [now right | assumption].
Qed.

Lemma rename_lower_normalized (df : DataFrame) :
  rename_lower (cols (normalized df)) = cols (normalized df).
Proof.
  assert (H : forall c, In c (cols (normalized df)) ->
                        (lower (fst c), snd c) = c).
  { intros [k s] Hc. apply normalized_incl, rename_lower_In in Hc.
    destruct Hc as [k' [_ ->]]. simpl. now rewrite lower_idempotent. }
  unfold rename_lower.
  rewrite (map_ext_in _ (fun c : column => c)); [apply map_id | exact H].
Qed.

(** X1.  Normalising the column names twice is normalising them once: on
    a frame whose names are already lower-cased and de-duplicated the two
    statements change nothing. *)
Theorem normalisation_idempotent (df : DataFrame) :
  exists D,
    drop_duplicate_columns df = Some D
    /\ drop_duplicate_columns D = Some D.
Proof.
  exists (normalized df).
  split; [apply drop_duplicate_columns_normalized|].
  rewrite drop_duplicate_columns_normalized. f_equal.
  unfold normalized at 1. rewrite rename_lower_normalized.
  rewrite <- keep_first_nil.
  rewrite keep_first_NoDup_id;
    [ now destruct (normalized df) | apply normalized_NoDup | simpl; tauto ].
Qed.

Variable read_csv : string -> option DataFrame.

Lemma stage3_cons (item : string * string) (rest : list (string * string)) :
  stage3 read_csv (item :: rest)
  = mkState
      (sub_df_list (iteration read_csv (mkState [] []) item)
       ++ sub_df_list (stage3 read_csv rest))
      (printed (iteration read_csv (mkState [] []) item)
       ++ printed (stage3 read_csv rest)).
Proof.
  change (item :: rest) with ([item] ++ rest).
  rewrite stage3_app. reflexivity.
Qed.

(** X2.  The loop prints one line per dataset, in the order of the
    datasets and each with the identifier of its dataset, and the number of
    tables it collects is the number of "Locations Extracted" lines. *)
Theorem one_line_per_dataset (datasets : list (string * string)) :
  map line_key (printed (stage3 read_csv datasets)) = map fst datasets
  /\ length (sub_df_list (stage3 read_csv datasets))
     = length (filter is_locations_extracted
                 (printed (stage3 read_csv datasets))).
Proof.
  induction datasets as [|[key value] rest [IH1 IH2]].
  - split; reflexivity.
  - rewrite stage3_cons. cbn [printed sub_df_list].
    rewrite map_app, filter_app, !length_app, IH1, IH2.
    rewrite iteration_cases.
    destruct (read_csv value) as [df|]; cbn zeta; [|split; reflexivity].
    destruct (coordinate_columns (normalized df)); [split; reflexivity|].
    destruct (extract key (normalized df) _ _); split; reflexivity.
Qed.

End Stage3More.

(** ** The order of the records *)

Section Layout.



Variable read_csv : string -> option DataFrame.


End Layout.


(** ** What the length test lets through *)

Section Heuristic.

Lemma sort_Forall (P : nat -> Prop) (l : list nat) :
  Forall P l -> Forall P (sort l).
Proof.
  induction 1 as [|x l Hx Hl IH]; simpl; [constructor|].
  now apply insert_Forall.
Qed.

Lemma all_short_median (l : list nat) :
  Forall (fun n => (n < 5)%nat) l -> ge (median l) 5 = false.
Proof.
  intros H. destruct (ge (median l) 5) eqn:E; [|reflexivity].
  pose proof (median_ge_5_short l E) as M.
  assert (F : filter short l = l).
  { clear E M. induction H as [|x l Hx Hl IH]; simpl; [reflexivity|].
    unfold short at 1. destruct (Nat.ltb_spec x 5); [now rewrite IH | lia]. }
  rewrite F in M. destruct l as [|x l]; [discriminate | simpl in M; lia].
Qed.

Lemma all_long_median (l : list nat) :
  l <> [] -> Forall (fun n => (5 <= n)%nat) l -> ge (median l) 5 = true.
Proof.
  intros Hne H. apply sort_Forall in H.
  unfold median, ge.
  assert (Hn : length (sort l) <> O).
  { rewrite sort_length. destruct l; [congruence | discriminate]. }
  clear Hne. set (s := sort l) in *. set (n := length s) in *.
  rewrite Forall_forall in H.
  assert (Hnth : forall i, (i < n)%nat -> (5 <= nth i s O)%nat).
  { intros i Hi. apply H. now apply nth_In. }
  destruct (Nat.eqb_spec n 0) as [|_]; [contradiction|].
  pose proof (Nat.div_lt n 2) as Hd.
  destruct (Nat.even n).
  - apply Qle_bool_5_mean.
    pose proof (Hnth (n / 2 - 1)%nat). pose proof (Hnth (n / 2)%nat). lia.
  - apply Qle_bool_5_inject. apply Hnth. lia.
Qed.

Lemma str_int_small (n : Z) :
  (-999 <= n <= 9999)%Z -> (String.length (str_int n) < 5)%nat.
Proof.
  intros Hn.
  assert (A : forallb
                (fun m => (String.length (str_int (Z.of_nat m - 999)) <? 5)%nat)
                (seq 0 (Z.to_nat 10999)) = true) by (vm_compute; reflexivity).
  rewrite forallb_forall in A.
  specialize (A (Z.to_nat (n + 999))).
  rewrite Z2Nat.id in A by lia.
  replace (n + 999 - 999)%Z with n in A by lia.
  apply Nat.ltb_lt. apply A. apply in_seq. lia.
Qed.

(** X4.  An integer column whose values all lie between -999 and 9999 is
    never taken as a location: its values are rendered in at most four
    characters. *)
Theorem small_integers_never_qualify (xs : list Z) :
  Forall (fun n => (-999 <= n <= 9999)%Z) xs ->
  ge (median (map String.length (astype_str (Int64 xs)))) 5 = false.
Proof.
  intros H. apply all_short_median.
  unfold astype_str. cbn [values]. rewrite !Forall_map.
  eapply Forall_impl; [|exact H].
  intros n Hn. cbn [str]. now apply str_int_small.
Qed.

(** X4 on the columns ID=42 and Depth=120. *)
Lemma small_integers_never_qualify_witness :
  ge (median (map String.length (astype_str (Int64 [42; 120]%Z)))) 5 = false.
Proof.
  apply small_integers_never_qualify. repeat constructor; lia.
Defined.

Lemma string_length_append (a b : string) :
  String.length (a ++ b) = (String.length a + String.length b)%nat.
Proof.
  induction a as [|c a IH]; simpl; [reflexivity | now rewrite IH].
Qed.

Lemma zeros_length (n : Z) : String.length (zeros n) = Z.to_nat n.
Proof.
  unfold zeros. induction (Z.to_nat n) as [|m IH]; simpl; congruence.
Qed.

Lemma substring_length (n m : nat) (s : string) :
  (n + m <= String.length s)%nat -> String.length (substring n m s) = m.
Proof.
  revert n m. induction s as [|c s IH]; intros n m H; simpl in H.
  - assert (n = O /\ m = O) as [-> ->] by lia. reflexivity.
  - destruct n as [|n]; simpl.
    + destruct m as [|m]; simpl; [reflexivity|].
      rewrite (IH O m) by lia. reflexivity.
    + apply IH. lia.
Qed.

Lemma substring_all_digits (n m : nat) (s : string) :
  all_digits s = true -> all_digits (substring n m s) = true.
Proof.
  revert n m. induction s as [|c s IH]; intros n m H; simpl in H.
  - destruct n, m; reflexivity.
  - apply andb_true_iff in H. destruct H as [Hc Hs].
    destruct n as [|n]; simpl.
    + destruct m as [|m]; simpl; [reflexivity|].
      rewrite Hc. simpl. now apply IH.
    + now apply IH.
Qed.

Lemma strip_trailing_dot_app (a b : string) :
  b <> EmptyString ->
  strip_trailing_dot (a ++ b) = (a ++ strip_trailing_dot b)%string.
Proof.
  intros Hb. induction a as [|c a IH]; [reflexivity|].
  cbn [append strip_trailing_dot]. rewrite IH.
  destruct (a ++ b)%string eqn:E; [|reflexivity].
  destruct a; [simpl in E; contradiction | discriminate].
Qed.

Lemma strip_trailing_dot_digits (s : string) :
  all_digits s = true -> strip_trailing_dot s = s.
Proof.
  induction s as [|c s IH]; [reflexivity|].
  intros H. simpl in H. apply andb_true_iff in H. destruct H as [Hc Hs].
  cbn [strip_trailing_dot]. rewrite IH by assumption.
  destruct s; [|reflexivity].
  destruct (Ascii.eqb_spec c "."); [|reflexivity].
  subst c. discriminate.
Qed.

Lemma strip_trailing_dot_length (s : string) :
  (String.length s - 1 <= String.length (strip_trailing_dot s))%nat.
Proof.
  induction s as [|c s IH]; [simpl; lia|].
  cbn [strip_trailing_dot]. destruct s as [|c' s'].
  - destruct (Ascii.eqb c "."); simpl; lia.
  - cbn [String.length] in *. lia.
Qed.

Lemma format_exponent_length (e : Z) :
  (3 <= String.length (format_exponent e))%nat.
Proof.
  unfold format_exponent. rewrite string_length_append.
  set (d := NilZero.string_of_uint (N.to_uint (Z.abs_N e))).
  assert (Hd : (1 <= String.length d)%nat).
  { unfold d, NilZero.string_of_uint.
    destruct (N.to_uint (Z.abs_N e)); simpl; lia. }
  destruct (e <? 0)%Z; destruct (Nat.ltb_spec (String.length d) 2);
    try rewrite string_length_append; simpl; lia.
Qed.

(** A float with three or more digits before the point is rendered in
    five or more characters: "120.0", "451234.56", "1e+17". *)
Lemma format_finite_length (digits : string) (decpt : Z) :
  digits <> EmptyString -> all_digits digits = true -> (3 <= decpt)%Z ->
  (5 <= String.length (format_finite digits decpt))%nat.
Proof.
  intros Hne Hd Hp. unfold format_finite.
  assert (HL : (1 <= String.length digits)%nat)
    by (destruct digits; [congruence | simpl; lia]).
  set (L := String.length digits) in *.
  destruct (Z.leb_spec decpt (-4)) as [|_]; [lia|]. cbn [orb].
  destruct (Z.ltb_spec 16 decpt) as [Hbig|Hsmall]; cbn [negb].
  - cbn [Z.leb Z.ltb Z.compare andb].
    destruct (Z.leb_spec 1 (Z.of_nat L)) as [_|]; [|lia].
    pose proof (format_exponent_length (decpt - 1)) as He.
    match goal with
    | |- context [strip_trailing_dot ?X] =>
        pose proof (strip_trailing_dot_length X) as Hs;
        assert (HX : (2 <= String.length X)%nat)
    end.
    { rewrite !string_length_append.
      rewrite (substring_length 0) by (fold L; lia).
      cbn [String.length]. lia. }
    rewrite string_length_append, (string_length_append "e").
    cbn [String.length]. lia.
  - destruct (Z.leb_spec decpt 0) as [|_]; [lia|].
    destruct (Z.ltb_spec 0 decpt) as [_|]; [|lia]. cbn [andb].
    replace (zeros (0 - 0)) with EmptyString by reflexivity.
    cbn [append].
    destruct (Z.leb_spec decpt (Z.of_nat L)) as [Hle|Hgt].
    + destruct (Z.ltb_spec (Z.of_nat L) decpt) as [|_]; [lia|].
      destruct (Z.eq_dec decpt (Z.of_nat L)) as [E|E].
      * replace (Z.max (Z.of_nat L) (decpt + 1) - Z.of_nat L)%Z with 1%Z
          by lia.
        change (zeros 1) with "0".
        rewrite strip_trailing_dot_app by discriminate.
        cbn [strip_trailing_dot Ascii.eqb Bool.eqb].
        rewrite !string_length_append.
        rewrite substring_length by (fold L; lia).
        cbn [String.length]. lia.
      * replace (Z.max (Z.of_nat L) (decpt + 1) - Z.of_nat L)%Z with 0%Z
          by lia.
        change (zeros 0) with EmptyString.
        assert (A : forall x : string, (x ++ "")%string = x)
          by (induction x; simpl; congruence).
        rewrite !A.
        assert (B : forall (x : string) c y,
                  ((x ++ String c y) = ((x ++ String c "") ++ y))%string)
          by (induction x; intros; simpl; congruence).
        rewrite B.
        assert (Hsub : String.length
                         (substring (Z.to_nat decpt)
                            (Z.to_nat (Z.of_nat L - decpt)) digits)
                       = Z.to_nat (Z.of_nat L - decpt))
          by (apply substring_length; fold L; lia).
        rewrite strip_trailing_dot_app
          by (intros C; rewrite C in Hsub; simpl in Hsub; lia).
        rewrite strip_trailing_dot_digits
          by (now apply substring_all_digits).
        rewrite !string_length_append, Hsub.
        rewrite substring_length by (fold L; lia).
        cbn [String.length]. lia.
    + destruct (Z.ltb_spec (Z.of_nat L) decpt) as [_|]; [|lia].
      replace (Z.max (Z.of_nat L) (decpt + 1) - decpt)%Z with 1%Z by lia.
      change (zeros 1) with "0".
      assert (B : forall x y z : string,
                ((x ++ y ++ z) = ((x ++ y) ++ z))%string)
        by (induction x; intros; simpl; congruence).
      rewrite !B.
      rewrite strip_trailing_dot_app by discriminate.
      cbn [strip_trailing_dot Ascii.eqb Bool.eqb].
      rewrite !string_length_append, zeros_length.
      cbn [String.length]. fold L. lia.
Qed.

(** X5.  A float column without missing values in which every value has
    three or more digits before the decimal point is always taken as a
    location, whatever it holds: 120.0 is rendered in five characters. *)
Theorem floats_from_100_qualify (xs : list float64) :
  xs <> [] ->
  Forall (digits_before_point 3) xs ->
  ge (median (map String.length (astype_str (Float64 xs)))) 5 = true.
Proof.
  intros Hne H. apply all_long_median.
  - destruct xs; [congruence | discriminate].
  - unfold astype_str. cbn [values]. rewrite !Forall_map.
    eapply Forall_impl; [|exact H].
    intros x Hx. destruct x as [| |negative digits decpt]; try contradiction.
    destruct Hx as (H1 & H2 & H3). cbn [str str_float].
    rewrite string_length_append.
    pose proof (format_finite_length digits decpt H1 H2 H3). lia.
Qed.

(** X5 on a column of depths, 120.0 and 250.0. *)
Lemma floats_from_100_qualify_witness :
  ge (median (map String.length
                (astype_str (Float64 [Finite false "12" 3;
                                      Finite false "25" 3])))) 5 = true.
Proof.
  apply floats_from_100_qualify; [discriminate|].
  repeat constructor; (discriminate || lia).
Defined.

End Heuristic.

(** ** Stage 1: the collar files *)

Section Dicts2.

Context {V : Type}.

Lemma lookup_put_same (d : dict V) (k : string) (v : V) :
  lookup (put d k v) k = Some v.
Proof.
  induction d as [|[k' v'] rest IH]; simpl.
  - now rewrite String.eqb_refl.
  - destruct (String.eqb_spec k' k) as [->|Hne]; simpl.
    + now rewrite String.eqb_refl.
    + apply String.eqb_neq in Hne. now rewrite Hne.
Qed.

Lemma lookup_put_other (d : dict V) (k k' : string) (v : V) :
  k' <> k -> lookup (put d k v) k' = lookup d k'.
Proof.
  intros Hk. induction d as [|[k2 v2] rest IH]; simpl.
  - apply not_eq_sym in Hk. apply String.eqb_neq in Hk. now rewrite Hk.
  - destruct (String.eqb_spec k2 k) as [->|Hne]; simpl.
    + apply not_eq_sym in Hk. apply String.eqb_neq in Hk. now rewrite Hk.
    + now rewrite IH.
Qed.

Lemma keys_put (d : dict V) (k : string) (v : V) :
  (In k (keys d) /\ keys (put d k v) = keys d)
  \/ (~ In k (keys d) /\ keys (put d k v) = keys d ++ [k]).
Proof.
  unfold keys. induction d as [|[k' v'] rest IH]; simpl.
  - right. tauto.
  - destruct (String.eqb_spec k' k) as [->|Hne]; simpl.
    + left. tauto.
    + destruct IH as [[H1 H2]|[H1 H2]]; rewrite H2.
      * left. tauto.
      * right. split; [tauto | reflexivity].
Qed.

Lemma In_put (d : dict V) (k k' : string) (v v' : V) :
  In (k', v') (put d k v) -> (k' = k /\ v' = v) \/ In (k', v') d.
Proof.
  induction d as [|[k2 v2] rest IH]; simpl.
  - intros [[= <- <-]|[]]. now left.
  - destruct (String.eqb_spec k2 k) as [->|Hne]; simpl.
    + intros [[= <- <-]|H]; [now left | right; now right].
    + intros [H|H]; [right; now left|].
      apply IH in H. tauto.
Qed.

End Dicts2.

Section CollarFiles.

(** What it takes for a resource to be stored: a report with both keys,
    open filed in 2010 or later, and a resource of it whose lower-cased name
    contains "collar". *)
Lemma resources_loop_sound (Q : string -> string -> Prop)
  (identifier : option string) (rs : list resource) (d0 d : dict string) :
  resources_loop identifier rs d0 = Some d ->
  (forall k u, In (k, u) d0 -> Q k u) ->
  (forall res name u k,
     In res rs -> resource_name res = Some name ->
     contains "collar" (lower name) = true ->
     resource_url res = Some u -> identifier = Some k -> Q k u) ->
  forall k u, In (k, u) d -> Q k u.
Proof.
  revert d0. induction rs as [|res rest IH]; intros d0 E H0 Hrs; simpl in E.
  - injection E as <-. exact H0.
  - destruct (resource_name res) as [name|] eqn:En; [|discriminate].
    destruct (contains "collar" (lower name)) eqn:Ec.
    + destruct (resource_url res) as [u0|] eqn:Eu; [|discriminate].
      destruct identifier as [k0|] eqn:Ei; [|discriminate].
      apply (IH _ E).
      * intros k u Hin. apply In_put in Hin.
        destruct Hin as [[-> ->]|Hin]; [|auto].
        apply (Hrs res name); auto. now left.
      * intros res' name' u' k' Hin. apply Hrs. now right.
    + apply (IH _ E); [assumption|].
      intros res' name' u' k' Hin. apply Hrs. now right.
Qed.

(** X6.  Every entry of [collar_file_dict] comes from a report that has
    the keys 'resources' and 'open_file_date', was open filed on or after
    '2010-01-01' as strings compare, and has the entry's key as identifier;
    the entry's value is the URL of a resource of that report whose
    lower-cased name contains "collar". *)
Theorem collar_files_sound (report_list : list report) (d : dict string)
  (k u : string) :
  collar_files report_list = Some d ->
  In (k, u) d ->
  exists r rs date res name,
    In r report_list
    /\ resources r = Some rs
    /\ open_file_date r = Some date
    /\ str_ge date "2010-01-01" = true
    /\ extra_identifier r = Some k
    /\ In res rs
    /\ resource_name res = Some name
    /\ contains "collar" (lower name) = true
    /\ resource_url res = Some u.
Proof.
  unfold collar_files.
  set (Q := fun (all : list report) k u =>
    exists r rs date res name,
      In r all /\ resources r = Some rs /\ open_file_date r = Some date
      /\ str_ge date "2010-01-01" = true /\ extra_identifier r = Some k
      /\ In res rs /\ resource_name res = Some name
      /\ contains "collar" (lower name) = true /\ resource_url res = Some u).
  assert (G : forall all d0,
            reports_loop all d0 = Some d ->
            forall seen,
              (forall k u, In (k, u) d0 -> Q seen k u) ->
              forall k u, In (k, u) d -> Q (seen ++ all) k u).
  { induction all as [|r rest IH]; intros d0 E seen H0 k' u' Hin; simpl in E.
    - injection E as <-. rewrite app_nil_r. auto.
    - destruct (report_step d0 r) as [d1|] eqn:E1; [|discriminate].
      replace (seen ++ r :: rest) with ((seen ++ [r]) ++ rest)
        by (now rewrite <- app_assoc).
      apply (IH d1 E); [|assumption].
      intros k2 u2 Hin2.
      assert (W : forall k u, Q seen k u -> Q (seen ++ [r]) k u).
      { intros k3 u3 (r0 & rs & date & res & name & Hr & Hrest).
        exists r0, rs, date, res, name. split; [|assumption].
        apply in_or_app. now left. }
      unfold report_step in E1.
      destruct (resources r) as [rs|] eqn:Ers;
        [|injection E1 as <-; auto].
      destruct (open_file_date r) as [date|] eqn:Ed;
        [|injection E1 as <-; auto].
      destruct (str_ge date "2010-01-01") eqn:Eg;
        [|injection E1 as <-; auto].
      apply (resources_loop_sound (Q (seen ++ [r])) _ _ _ _ E1); auto.
      intros res name u3 k3 Hres Hn Hc Hu Hi.
      exists r, rs, date, res, name.
      repeat split; try assumption.
      apply in_or_app. right. now left. }
  intros E Hin. apply (G report_list [] E [] (fun _ _ F => match F with end)).
  exact Hin.
Qed.

Lemma resources_loop_keys (identifier : option string) (rs : list resource)
  (d0 d : dict string) :
  resources_loop identifier rs d0 = Some d ->
  keys d = keys d0
  \/ exists k, identifier = Some k /\ ~ In k (keys d0)
               /\ keys d = keys d0 ++ [k].
Proof.
  revert d0. induction rs as [|res rest IH]; intros d0 E; simpl in E.
  - injection E as <-. now left.
  - destruct (resource_name res) as [name|]; [|discriminate].
    destruct (contains "collar" (lower name)); [|now apply IH].
    destruct (resource_url res) as [u0|]; [|discriminate].
    destruct identifier as [k0|] eqn:Ei; [|discriminate].
    apply IH in E. destruct (keys_put d0 k0 u0) as [[H1 H2]|[H1 H2]].
    + destruct E as [E|(k & [= <-] & Hk & E)].
      * left. congruence.
      * rewrite H2 in Hk. contradiction.
    + right. exists k0. split; [reflexivity|]. split; [assumption|].
      destruct E as [E|(k & [= <-] & Hk & E)]; [congruence|].
      exfalso. apply Hk. rewrite H2. apply in_or_app. right. now left.
Qed.

(** X7.  No identifier is stored twice, and the number printed as "Number
    of collar files found" is at most the number of reports: a report
    counts once however many collar files it has. *)
Theorem collar_files_count (report_list : list report) (d : dict string) :
  collar_files report_list = Some d ->
  NoDup (keys d) /\ (length d <= length report_list)%nat.
Proof.
  unfold collar_files.
  assert (G : forall all d0,
            reports_loop all d0 = Some d -> NoDup (keys d0) ->
            NoDup (keys d) /\ (length d <= length d0 + length all)%nat).
  { induction all as [|r rest IH]; intros d0 E Hnd; simpl in E.
    - injection E as <-. split; [assumption | lia].
    - destruct (report_step d0 r) as [d1|] eqn:E1; [|discriminate].
      assert (S1 : NoDup (keys d1) /\ (length d1 <= S (length d0))%nat).
      { unfold report_step in E1.
        destruct (resources r) as [rs|];
          [|injection E1 as <-; split; [assumption | lia]].
        destruct (open_file_date r) as [date|];
          [|injection E1 as <-; split; [assumption | lia]].
        destruct (str_ge date "2010-01-01");
          [|injection E1 as <-; split; [assumption | lia]].
        apply resources_loop_keys in E1.
        assert (L : forall x : dict string, length x = length (keys x))
          by (intros x; unfold keys; now rewrite length_map).
        rewrite !L.
        destruct E1 as [E1|(k & _ & Hk & E1)]; rewrite E1.
        - split; [assumption | lia].
        - split.
          + apply NoDup_app; [assumption | repeat constructor; simpl; tauto|].
            intros x Hx [<-|[]]. contradiction.
          + rewrite length_app. simpl. lia. }
      destruct S1 as [N1 L1]. destruct (IH d1 E N1) as [N2 L2].
      split; [assumption | simpl; lia]. }
  intros E. destruct (G report_list [] E) as [N L]; [constructor|].
  split; [assumption | simpl in L; lia].
Qed.

Lemma last_of_app {A : Type} (l1 l2 : list A) :
  last_of (l1 ++ l2)
  = match last_of l2 with
    | Some x => Some x
    | None => last_of l1
    end.
Proof.
  unfold last_of. rewrite rev_app_distr.
  destruct (rev l2); simpl; reflexivity.
Qed.

Lemma resources_loop_lookup (identifier : option string)
  (rs : list resource) (d0 d : dict string) (k : string) :
  resources_loop identifier rs d0 = Some d ->
  lookup d k
  = match
      last_of
        (match identifier with
         | Some k' =>
             if String.eqb k' k
             then
               flat_map
                 (fun res =>
                    match resource_name res, resource_url res with
                    | Some name, Some url =>
                        if contains "collar" (lower name) then [url] else []
                    | _, _ => []
                    end) rs
             else []
         | None => []
         end)
    with
    | Some u => Some u
    | None => lookup d0 k
    end.
Proof.
  revert d0. induction rs as [|res rest IH]; intros d0 E; simpl in E.
  - injection E as <-. destruct identifier as [k'|]; [|reflexivity].
    destruct (String.eqb k' k); reflexivity.
  - destruct (resource_name res) as [name|] eqn:En; [|discriminate].
    destruct (contains "collar" (lower name)) eqn:Ec.
    + destruct (resource_url res) as [u0|] eqn:Eu; [|discriminate].
      destruct identifier as [k0|] eqn:Ei; [|discriminate].
      rewrite (IH _ E). cbn [flat_map]. rewrite En, Eu, Ec.
      destruct (String.eqb_spec k0 k) as [->|Hne].
      * rewrite last_of_app.
        destruct (last_of (flat_map _ rest)); [reflexivity|].
        now rewrite lookup_put_same.
      * rewrite lookup_put_other by congruence. reflexivity.
    + rewrite (IH _ E). cbn [flat_map]. rewrite En, Ec.
      destruct (resource_url res); reflexivity.
Qed.

(** X8.  For every identifier, [collar_file_dict] holds the URL of the
    last collar file of the last report with that identifier that has one,
    and nothing when there is no such report: a later collar file replaces
    an earlier one. *)
Theorem collar_files_last_wins (report_list : list report) (d : dict string) :
  collar_files report_list = Some d ->
  forall k, lookup d k = last_of (collar_urls_for k report_list).
Proof.
  unfold collar_files. intros E k.
  assert (G : forall all d0,
            reports_loop all d0 = Some d ->
            lookup d k
            = match last_of (collar_urls_for k all) with
              | Some u => Some u
              | None => lookup d0 k
              end).
  { induction all as [|r rest IH]; intros d0 E0; simpl in E0.
    - injection E0 as <-. reflexivity.
    - destruct (report_step d0 r) as [d1|] eqn:E1; [|discriminate].
      rewrite (IH d1 E0). unfold collar_urls_for. cbn [flat_map].
      rewrite last_of_app.
      fold (collar_urls_for k rest).
      destruct (last_of (collar_urls_for k rest)); [reflexivity|].
      unfold report_step in E1. unfold collar_urls.
      destruct (resources r) as [rs|];
        [|injection E1 as <-; destruct (extra_identifier r) as [k'|];
          [destruct (String.eqb k' k)|]; reflexivity].
      destruct (open_file_date r) as [date|];
        [|injection E1 as <-; destruct (extra_identifier r) as [k'|];
          [destruct (String.eqb k' k)|]; reflexivity].
      destruct (str_ge date "2010-01-01");
        [|injection E1 as <-; destruct (extra_identifier r) as [k'|];
          [destruct (String.eqb k' k)|]; reflexivity].
      apply (resources_loop_lookup _ _ _ _ k) in E1. exact E1. }
  rewrite (G report_list [] E).
  destruct (last_of (collar_urls_for k report_list)); reflexivity.
Qed.

Lemma resources_loop_no_identifier (rs : list resource) (d0 : dict string) :
  (exists res name,
     In res rs /\ resource_name res = Some name
     /\ contains "collar" (lower name) = true) ->
  resources_loop None rs d0 = None.
Proof.
  intros (res & name & Hin & Hn & Hc).
  induction rs as [|res0 rest IH]; [contradiction|]. simpl.
  destruct (resource_name res0) as [name0|] eqn:E0; [|reflexivity].
  destruct (contains "collar" (lower name0)) eqn:C0.
  - destruct (resource_url res0); reflexivity.
  - destruct Hin as [->|Hin]; [congruence | auto].
Qed.

(** X9.  The cell has no handler: when a report that passes the two tests
    has a collar file but no key 'extra:identifier', the cell raises and
    no [collar_file_dict] is left, whatever the other reports are. *)
Theorem collar_files_missing_identifier (report_list : list report)
  (r : report) (rs : list resource) (date : string) :
  In r report_list ->
  resources r = Some rs ->
  open_file_date r = Some date ->
  str_ge date "2010-01-01" = true ->
  extra_identifier r = None ->
  (exists res name,
     In res rs /\ resource_name res = Some name
     /\ contains "collar" (lower name) = true) ->
  collar_files report_list = None.
Proof.
  intros Hin Hrs Hd Hg Hi Hc. unfold collar_files.
  generalize (@nil (string * string)) as d0.
  induction report_list as [|r0 rest IH]; [contradiction|].
  intros d0. simpl. destruct Hin as [->|Hin].
  - unfold report_step. rewrite Hrs, Hd, Hg, Hi.
    now rewrite resources_loop_no_identifier.
  - destruct (report_step d0 r0); [now apply IH | reflexivity].
Qed.

End CollarFiles.

(** X6 on three reports: the one entry comes from the report of 2015 and
    its third resource. *)
Lemma collar_files_sound_witness :
  exists r rs date res name,
    In r [report_with_two_collar_files; report_of_2009;
          report_without_resources]
    /\ resources r = Some rs
    /\ open_file_date r = Some date
    /\ str_ge date "2010-01-01" = true
    /\ extra_identifier r = Some "CR1"
    /\ In res rs
    /\ resource_name res = Some name
    /\ contains "collar" (lower name) = true
    /\ resource_url res = Some "u3".
Proof.
  apply (collar_files_sound
           [report_with_two_collar_files; report_of_2009;
            report_without_resources] [("CR1", "u3")] "CR1" "u3").
  - reflexivity.
  - now left.
Defined.

(** X7 on the same reports: three reports, four resources called collar,
    one entry. *)
Lemma collar_files_count_witness :
  NoDup (keys [("CR1", "u3")])
  /\ (length [("CR1", "u3")] <= 3)%nat.
Proof.
  exact (collar_files_count
           [report_with_two_collar_files; report_of_2009;
            report_without_resources] [("CR1", "u3")] eq_refl).
Defined.

(** X8 on the same reports: of the two collar files of CR1 the second is
    kept, and the report of 2009 leaves nothing. *)
Lemma collar_files_last_wins_witness :
  lookup [("CR1", "u3")] "CR1" = Some "u3"
  /\ lookup [("CR1", "u3")] "CR2" = None.
Proof.
  pose proof (collar_files_last_wins
                [report_with_two_collar_files; report_of_2009;
                 report_without_resources] [("CR1", "u3")] eq_refl) as H.
  split; [exact (H "CR1") | exact (H "CR2")].
Defined.

(** X9 with a report of 2010-01-01 that has a collar file and no
    identifier, after a report that is stored. *)
Lemma collar_files_missing_identifier_witness :
  collar_files [report_with_two_collar_files; report_without_identifier]
  = None.
Proof.
  apply (collar_files_missing_identifier _ report_without_identifier
           [mkResource (Some "collar.txt") (Some "u5")] "2010-01-01").
  - right. now left.
  - reflexivity.
  - reflexivity.
  - reflexivity.
  - reflexivity.
  - exists (mkResource (Some "collar.txt") (Some "u5")), "collar.txt".
    repeat split. now left.
Defined.

(** ** The date test *)

Section Dates.

Lemma compare_app (a b s t : string) :
  String.length a = String.length b ->
  String.compare (a ++ s) (b ++ t)
  = match String.compare a b with
    | Eq => String.compare s t
    | c => c
    end.
Proof.
  revert b. induction a as [|c a IH]; intros [|c' b] H; try discriminate.
  - reflexivity.
  - cbn [append String.compare].
    destruct (Ascii.compare c c'); [|reflexivity..].
    apply IH. now injection H.
Qed.

Lemma two_digits_compare (ref n : nat) :
  (ref < 100)%nat -> (n < 100)%nat ->
  String.compare (two_digits ref) (two_digits n) = Nat.compare ref n.
Proof.
  intros Hr Hn.
  assert (A : forallb
                (fun r =>
                   forallb
                     (fun m =>
                        match String.compare (two_digits r) (two_digits m),
                              Nat.compare r m with
                        | Eq, Eq | Lt, Lt | Gt, Gt => true
                        | _, _ => false
                        end) (seq 0 100)) (seq 0 100) = true)
    by (vm_compute; reflexivity).
  pose proof (proj1 (forallb_forall _ _) A ref
                ltac:(apply in_seq; lia)) as A1.
  pose proof (proj1 (forallb_forall _ _) A1 n
                ltac:(apply in_seq; lia)) as A2.
  cbv beta in A2.
  destruct (String.compare (two_digits ref) (two_digits n)),
           (Nat.compare ref n);
    try reflexivity; discriminate A2.
Qed.

Lemma month_day_compare (month day : nat) :
  (1 <= month <= 12)%nat -> (1 <= day <= 31)%nat ->
  String.compare "-01-01"
    ("-" ++ two_digits month ++ "-" ++ two_digits day) <> Gt.
Proof.
  intros Hm Hd.
  assert (A : forallb
                (fun m =>
                   forallb
                     (fun d =>
                        match String.compare "-01-01"
                                ("-" ++ two_digits m ++ "-" ++ two_digits d)
                        with
                        | Gt => false
                        | _ => true
                        end) (seq 1 31)) (seq 1 12) = true)
    by (vm_compute; reflexivity).
  pose proof (proj1 (forallb_forall _ _) A month
                ltac:(apply in_seq; lia)) as A1.
  pose proof (proj1 (forallb_forall _ _) A1 day
                ltac:(apply in_seq; lia)) as A2.
  cbv beta in A2. intros C. rewrite C in A2. discriminate A2.
Qed.

(** X10.  On dates written YYYY-MM-DD the comparison of strings is the
    comparison of dates: such a date passes [>= '2010-01-01'] exactly when
    its year is 2010 or later. *)
Theorem date_test_on_iso_dates (year month day : nat) :
  (Z.of_nat year < 10000)%Z ->
  (1 <= month <= 12)%nat ->
  (1 <= day <= 31)%nat ->
  str_ge (iso_date year month day) "2010-01-01" = (2010 <=? year)%nat.
Proof.
  intros Hy Hm Hd. unfold str_ge, String.leb, iso_date.
  change "2010-01-01" with ("20" ++ "10" ++ "-01-01")%string.
  assert (Hc : (year / 100 < 100)%nat)
    by (apply Nat.Div0.div_lt_upper_bound; lia).
  assert (Hb : (year mod 100 < 100)%nat) by (apply Nat.mod_upper_bound; lia).
  pose proof (Nat.div_mod_eq year 100) as Hdm.
  rewrite compare_app by reflexivity.
  change "20" with (two_digits 20). rewrite two_digits_compare by lia.
  destruct (Nat.compare_spec 20 (year / 100)) as [E|E|E].
  - rewrite compare_app by reflexivity.
    change "10" with (two_digits 10). rewrite two_digits_compare by lia.
    destruct (Nat.compare_spec 10 (year mod 100)) as [E'|E'|E'].
    + pose proof (month_day_compare month day Hm Hd) as M.
      destruct (String.compare _ _); [| |contradiction];
        symmetry; apply Nat.leb_le; lia.
    + symmetry. apply Nat.leb_le. lia.
    + symmetry. apply Nat.leb_gt. lia.
  - symmetry. apply Nat.leb_le. lia.
  - symmetry. apply Nat.leb_gt. lia.
Qed.

(** X10 on 2009-12-31 and on 2010-01-01 itself. *)
Lemma date_test_on_iso_dates_witness :
  str_ge (iso_date 2009 12 31) "2010-01-01" = false
  /\ str_ge (iso_date 2010 1 1) "2010-01-01" = true.
Proof.
  split.
  - rewrite (date_test_on_iso_dates 2009 12 31) by lia. reflexivity.
  - rewrite (date_test_on_iso_dates 2010 1 1) by lia. reflexivity.
Defined.

End Dates.

(** ** Stage 2: the two kinds of file *)

Section TemplatesMore.

Lemma put_fresh {V : Type} (d : dict V) (k : string) (v : V) :
  ~ In k (keys d) -> put d k v = d ++ [(k, v)].
Proof.
  unfold keys. induction d as [|[k' v'] rest IH]; simpl; [reflexivity|].
  intros H. destruct (String.eqb_spec k' k) as [->|Hne]; [tauto|].
  rewrite IH by tauto. reflexivity.
Qed.

Variable urlopen_read : string -> option string.

(** With every key once, each entry goes to the end of one dict or adds
    one to the counter. *)
Lemma stage2_filter_from (items : dict string) (t : tally) :
  NoDup (keys items) ->
  (forall k, In k (keys items) ->
             ~ In k (keys (ggic t)) /\ ~ In k (keys (other t))) ->
  fold_left (classify urlopen_read) items t
  = mkTally
      (ggic t
       ++ filter (fun it => is_GGIC (verdict urlopen_read (snd it))) items)
      (other t
       ++ filter (fun it => is_Other (verdict urlopen_read (snd it))) items)
      (error_reading_file t
       + length (filter (fun it => is_Unreadable (verdict urlopen_read (snd it)))
                   items)).
Proof.
  revert t. induction items as [|[key value] rest IH]; intros t Hnd Hfresh.
  - simpl. rewrite !app_nil_r, Nat.add_0_r. now destruct t.
  - cbn [fold_left]. inversion Hnd as [|? ? Hnot Hnd']; subst.
    destruct (Hfresh key (or_introl eq_refl)) as [Hg Ho].
    assert (Hrest : forall k, In k (keys rest) -> k <> key)
      by (intros k Hk ->; contradiction).
    unfold classify at 2. unfold verdict at 1 2 3. cbn [filter snd].
    destruct (urlopen_read value) as [response|].
    + destruct (has_ggic_tag (cleaned response)); cbn [is_GGIC is_Other
        is_Unreadable]; rewrite IH; cbn [ggic other error_reading_file];
        try assumption.
      * rewrite put_fresh by assumption. now rewrite <- app_assoc.
      * intros k Hk. destruct (Hfresh k (or_intror Hk)) as [H1 H2].
        split; [|assumption]. rewrite put_fresh by assumption.
        unfold keys. rewrite map_app. intros H. apply in_app_or in H.
        destruct H as [H|[H|[]]]; [contradiction|].
        simpl in H. apply (Hrest k Hk). congruence.
      * rewrite put_fresh by assumption. now rewrite <- app_assoc.
      * intros k Hk. destruct (Hfresh k (or_intror Hk)) as [H1 H2].
        split; [assumption|]. rewrite put_fresh by assumption.
        unfold keys. rewrite map_app. intros H. apply in_app_or in H.
        destruct H as [H|[H|[]]]; [contradiction|].
        simpl in H. apply (Hrest k Hk). congruence.
    + cbn [is_GGIC is_Other is_Unreadable]. rewrite IH;
        cbn [ggic other error_reading_file]; try assumption.
      * cbn [length]. now rewrite <- Nat.add_assoc.
      * intros k Hk. apply Hfresh. now right.
Qed.

Lemma stage2_filter (items : dict string) :
  NoDup (keys items) ->
  stage2 urlopen_read items
  = mkTally
      (filter (fun it => is_GGIC (verdict urlopen_read (snd it))) items)
      (filter (fun it => is_Other (verdict urlopen_read (snd it))) items)
      (length (filter (fun it => is_Unreadable (verdict urlopen_read (snd it)))
                 items)).
Proof.
  intros Hnd. unfold stage2. rewrite stage2_filter_from; [reflexivity|..].
  - assumption.
  - simpl. tauto.
Qed.

(** X11.  The three numbers the notebook prints after stage 2 add up: every
    collar file is counted once, as a GGIC template, as another template or
    as an error. *)
Theorem stage2_counts (collar_file_dict : dict string) :
  NoDup (keys collar_file_dict) ->
  let t := stage2 urlopen_read collar_file_dict in
  (length (ggic t) + length (other t) + error_reading_file t)%nat
  = length collar_file_dict.
Proof.
  intros Hnd. cbn zeta. rewrite stage2_filter by assumption.
  cbn [ggic other error_reading_file].
  induction collar_file_dict as [|[key value] rest IH]; [reflexivity|].
  inversion Hnd; subst. cbn [filter snd length].
  destruct (verdict urlopen_read value);
    cbn [is_GGIC is_Other is_Unreadable length]; rewrite <- IH by assumption;
    lia.
Qed.

(** X12.  Stage 2 only sorts the entries: [ggic] holds the entries whose
    first 500 bytes carry a tag and [other] those that were read and carry
    none, each with the key and URL it had and in the order it had, and
    no key is in both. *)
Theorem stage2_sorts_entries (collar_file_dict : dict string) :
  NoDup (keys collar_file_dict) ->
  let t := stage2 urlopen_read collar_file_dict in
  ggic t
  = filter (fun it => is_GGIC (verdict urlopen_read (snd it)))
           collar_file_dict
  /\ other t
     = filter (fun it => is_Other (verdict urlopen_read (snd it)))
              collar_file_dict
  /\ forall k, ~ (In k (keys (ggic t)) /\ In k (keys (other t))).
Proof.
  intros Hnd. cbn zeta. rewrite stage2_filter by assumption.
  cbn [ggic other]. split; [reflexivity|]. split; [reflexivity|].
  intros k [Hg Ho]. unfold keys in Hg, Ho.
  apply in_map_iff in Hg, Ho.
  destruct Hg as [[k1 v1] [E1 H1]]. destruct Ho as [[k2 v2] [E2 H2]].
  simpl in E1, E2. subst k1 k2.
  apply filter_In in H1, H2. destruct H1 as [I1 V1]. destruct H2 as [I2 V2].
  assert (v1 = v2).
  { assert (L : forall (d : dict string) k v,
              NoDup (keys d) -> In (k, v) d -> lookup d k = Some v).
    { clear. intros d k v. unfold keys.
      induction d as [|[k' v'] rest IH]; simpl; [tauto|].
      intros Hnd [H|H].
      - injection H as -> ->. now rewrite String.eqb_refl.
      - inversion Hnd as [|? ? Hnot Hnd']; subst.
        destruct (String.eqb_spec k' k) as [->|Hne]; [|auto].
        exfalso. apply Hnot. now apply (in_map fst) in H. }
    pose proof (L _ _ _ Hnd I1). pose proof (L _ _ _ Hnd I2). congruence. }
  subst v2. simpl in V1, V2.
  destruct (verdict urlopen_read v1); discriminate.
Qed.

End TemplatesMore.

(** X11 on three entries: one of each kind. *)
Lemma stage2_counts_witness :
  let t := stage2 (fun u => if String.eqb u "u1" then Some "H0001 A"
                            else if String.eqb u "u2" then Some "Hole East"
                            else None)
                  [("CR1", "u1"); ("CR2", "u2"); ("CR3", "u3")] in
  (length (ggic t) + length (other t) + error_reading_file t = 3)%nat.
Proof.
  apply (stage2_counts _ [("CR1", "u1"); ("CR2", "u2"); ("CR3", "u3")]).
  repeat constructor; simpl; intuition discriminate.
Defined.

(** X12 on the same entries. *)
Lemma stage2_sorts_entries_witness :
  let t := stage2 (fun u => if String.eqb u "u1" then Some "H0001 A"
                            else if String.eqb u "u2" then Some "Hole East"
                            else None)
                  [("CR1", "u1"); ("CR2", "u2"); ("CR3", "u3")] in
  ggic t = [("CR1", "u1")] /\ other t = [("CR2", "u2")].
Proof.
  destruct (stage2_sorts_entries
              (fun u => if String.eqb u "u1" then Some "H0001 A"
                        else if String.eqb u "u2" then Some "Hole East"
                        else None)
              [("CR1", "u1"); ("CR2", "u2"); ("CR3", "u3")])
    as (G & O & _).
  - repeat constructor; simpl; intuition discriminate.
  - cbn zeta. rewrite G, O. split; reflexivity.
Defined.

(** ** The template tags and the cleaning of the text *)

Section Tags.

Lemma string_append_assoc (a b c : string) :
  ((a ++ b) ++ c = a ++ b ++ c)%string.
Proof.
  induction a as [|x a IH]; simpl; [reflexivity | now rewrite IH].
Qed.

Lemma contains_unfold (sub s : string) :
  contains sub s
  = prefix sub s
    || match s with
       | EmptyString => false
       | String _ s' => contains sub s'
       end.
Proof. destruct s; reflexivity. Qed.

Lemma prefix_append (sub b : string) : prefix sub (sub ++ b) = true.
Proof.
  induction sub as [|c sub IH]; simpl; [now destruct b|].
  destruct (ascii_dec c c); [assumption | congruence].
Qed.

Lemma prefix_decompose (sub s : string) :
  prefix sub s = true -> exists b, s = (sub ++ b)%string.
Proof.
  revert s. induction sub as [|c sub IH]; intros s H.
  - exists s. reflexivity.
  - destruct s as [|c' s]; simpl in H; [discriminate|].
    destruct (ascii_dec c c') as [->|]; [|discriminate].
    destruct (IH s H) as [b ->]. exists b. reflexivity.
Qed.

Lemma contains_append (sub a b : string) :
  contains sub (a ++ sub ++ b) = true.
Proof.
  induction a as [|c a IH].
  - cbn [append]. rewrite contains_unfold, prefix_append. reflexivity.
  - cbn [append]. rewrite contains_unfold, IH. apply orb_true_r.
Qed.

Lemma contains_decompose (sub s : string) :
  contains sub s = true -> exists a b, s = (a ++ sub ++ b)%string.
Proof.
  induction s as [|c s IH]; rewrite contains_unfold; intros H;
    apply orb_true_iff in H; destruct H as [H|H].
  - apply prefix_decompose in H. destruct H as [b ->].
    exists EmptyString, b. reflexivity.
  - discriminate.
  - apply prefix_decompose in H. destruct H as [b ->].
    exists EmptyString, b. reflexivity.
  - destruct (IH H) as (a & b & ->). exists (String c a), b. reflexivity.
Qed.

Lemma replace_char_append (old : ascii) (new a b : string) :
  replace_char old new (a ++ b)
  = (replace_char old new a ++ replace_char old new b)%string.
Proof.
  induction a as [|c a IH]; simpl; [reflexivity|].
  destruct (Ascii.eqb c old); rewrite IH;
    [now rewrite string_append_assoc | reflexivity].
Qed.

(** A pattern without tab and carriage return that is in the text is
    still in the cleaned text. *)
Lemma cleaned_keeps (sub s : string) :
  replace_char tab " " sub = sub ->
  replace_char carriage_return "" sub = sub ->
  contains sub s = true -> contains sub (cleaned s) = true.
Proof.
  intros Ht Hr H. apply contains_decompose in H. destruct H as (a & b & ->).
  unfold cleaned. rewrite !replace_char_append, Ht, Hr.
  apply contains_append.
Qed.

Variable urlopen_read : string -> option string.

(** X13.  Cleaning never hides a tag: a file whose first 500 bytes contain
    "H0001" or "H0002" as they are read is put among the GGIC templates. *)
Theorem tagged_files_are_ggic (t : tally) (key value response : string) :
  urlopen_read value = Some response ->
  has_ggic_tag response = true ->
  classify urlopen_read t (key, value)
  = mkTally (put (ggic t) key value) (other t) (error_reading_file t).
Proof.
  intros R H. unfold classify. rewrite R.
  replace (has_ggic_tag (cleaned response)) with true; [reflexivity|].
  symmetry. unfold has_ggic_tag in *. apply orb_true_iff in H.
  apply orb_true_iff. destruct H as [H|H]; [left | right];
    (apply cleaned_keeps; [reflexivity | reflexivity | assumption]).
Qed.

End Tags.

(** X13 on a file that starts with the line "H0002", tab, "Version". *)
Lemma tagged_files_are_ggic_witness :
  classify (fun _ => Some ("H0002" ++ String tab "Version")%string)
    (mkTally [] [] 0) ("CR1", "u1")
  = mkTally [("CR1", "u1")] [] 0.
Proof.
  apply (tagged_files_are_ggic _ (mkTally [] [] 0) "CR1" "u1"
           ("H0002" ++ String tab "Version")%string); reflexivity.
Defined.

(** The other way round it does not hold: removing a carriage return can
    make a tag. *)
Example carriage_return_makes_tag :
  let response := ("H00" ++ String carriage_return "01")%string in
  has_ggic_tag response = false /\ has_ggic_tag (cleaned response) = true.
Proof. split; reflexivity. Qed.

(** ** The combined table *)

Section CombinedMore.

Lemma unique_strings (seen names : list string) :
  Combined.unique_from (map SStr seen) (map SStr names)
  = map SStr (first_labels_from seen names).
Proof.
  revert seen. induction names as [|k rest IH]; intros seen; simpl.
  - reflexivity.
  - assert (E : existsb (same_value (SStr k)) (map SStr seen)
                = existsb (String.eqb k) seen).
    { clear. induction seen as [|x seen IH]; simpl; [reflexivity|].
      now rewrite IH. }
    rewrite E. destruct (existsb (String.eqb k) seen).
    + apply IH.
    + simpl. f_equal. apply (IH (k :: seen)).
Qed.

Lemma repeat_strings (n : nat) (names : list string) :
  flat_map (fun k => repeat (SStr k) n) names
  = map SStr (flat_map (fun k => repeat k n) names).
Proof.
  induction names as [|k l IH]; simpl; [reflexivity|].
  rewrite map_app, <- IH. f_equal.
  clear. induction n; simpl; congruence.
Qed.

Lemma melted_cells (key : string) (D : DataFrame) (cc : list string)
  (n : nat) :
  cells (mkDataFrame n (melted_columns key D cc)) "report_id"
  = concat (repeat (repeat (SStr key) (n_rows D)) (length (unpivoted cc)))
  /\ cells (mkDataFrame n (melted_columns key D cc)) "variable"
     = flat_map (fun k => repeat (SStr k) (n_rows D)) (unpivoted cc)
  /\ cells (mkDataFrame n (melted_columns key D cc)) "value"
     = concat (map (cells D) (unpivoted cc)).
Proof.
  repeat split; reflexivity.
Qed.

Lemma stack_long_tables (rest : list DataFrame) (r v c : list scalar) :
  Forall (fun a => exists names, long_table a names) rest ->
  fold_left (fun above df => stack_below above (cols df)) rest
    [("report_id", Object r); ("variable", Object v); ("value", Object c)]
  = [("report_id", Object (r ++ flat_map (fun a => cells a "report_id") rest));
     ("variable", Object (v ++ flat_map (fun a => cells a "variable") rest));
     ("value", Object (c ++ flat_map (fun a => cells a "value") rest))].
Proof.
  revert r v c. induction rest as [|a rest IH]; intros r v c H; simpl.
  - now rewrite !app_nil_r.
  - inversion H as [|? ? (names & r' & c' & E) H']; subst.
    unfold cells, get. rewrite E.
    cbn [stack_below series_append values dict_get String.eqb Ascii.eqb
         Bool.eqb].
    rewrite IH by assumption. now rewrite !app_assoc.
Qed.

(** The tables of stage 3 put together: each column is the columns of the
    tables one below the other. *)
Lemma concat_long_tables (first : DataFrame) (rest : list DataFrame) :
  Forall (fun a => exists names, long_table a names) (first :: rest) ->
  concat_frames (first :: rest)
  = Some (mkDataFrame (list_sum (map n_rows (first :: rest)))
            [("report_id",
              Object (flat_map (fun a => cells a "report_id")
                        (first :: rest)));
             ("variable",
              Object (flat_map (fun a => cells a "variable")
                        (first :: rest)));
             ("value",
              Object (flat_map (fun a => cells a "value")
                        (first :: rest)))]).
Proof.
  intros H. inversion H as [|? ? (names & r & c & E) H']; subst.
  unfold concat_frames.
  assert (S : forallb (same_columns first) rest = true).
  { apply forallb_forall. intros a Ha. rewrite Forall_forall in H'.
    destruct (H' a Ha) as (n' & r' & c' & E').
    unfold same_columns, columns. rewrite E, E'. cbn [map fst].
    destruct (list_eq_dec string_dec _ _); [reflexivity | congruence]. }
  rewrite S, E. rewrite stack_long_tables by assumption.
  assert (C1 : cells first "report_id" = r)
    by (unfold cells, get; rewrite E; reflexivity).
  assert (C2 : cells first "variable" = map SStr names)
    by (unfold cells, get; rewrite E; reflexivity).
  assert (C3 : cells first "value" = c)
    by (unfold cells, get; rewrite E; reflexivity).
  cbn [flat_map]. now rewrite C1, C2, C3.
Qed.

Lemma concat_long_tables_variable (first : DataFrame)
  (rest : list DataFrame) :
  Forall (fun a => exists names, long_table a names) (first :: rest) ->
  exists final,
    concat_frames (first :: rest) = Some final
    /\ getitem final "variable"
       = Some (Object (flat_map (fun a => cells a "variable")
                         (first :: rest))).
Proof.
  intros H. eexists. split; [now apply concat_long_tables|]. reflexivity.
Qed.

Lemma flat_map_length_sum {A B : Type} (f : A -> list B) (g : A -> nat)
  (l : list A) :
  Forall (fun a => length (f a) = g a) l ->
  length (flat_map f l) = list_sum (map g l).
Proof.
  induction 1 as [|a l H _ IH]; simpl; [reflexivity|].
  now rewrite length_app, H, IH.
Qed.

Variable read_csv : string -> option DataFrame.

(** Every table that stage 3 collects is in long form, and the names in
    its "variable" column are lower-case names other than "report_id". *)
Lemma stage3_long_tables (datasets : list (string * string)) :
  Forall (fun a =>
            exists names,
              long_table a names
              /\ forall k, In k names -> k <> "report_id" /\ lower k = k)
         (sub_df_list (stage3 read_csv datasets)).
Proof.
  induction datasets as [|[key value] rest IH]; [constructor|].
  rewrite stage3_cons. cbn [sub_df_list]. apply Forall_app.
  split; [|assumption]. rewrite iteration_cases.
  destruct (read_csv value) as [df|]; cbn zeta; [|constructor].
  destruct (coordinate_columns (normalized df)) as [|k0 cc] eqn:CC;
    [constructor|].
  rewrite <- CC.
  destruct (extract key (normalized df) _ _) as [a|] eqn:EX; [|constructor].
  cbn [sub_df_list app]. constructor; [|constructor].
  apply extract_Some in EX. destruct EX as (_ & -> & _).
  exists (flat_map (fun k => repeat k (n_rows (normalized df)))
            (unpivoted (coordinate_columns (normalized df)))).
  split.
  - unfold long_table, melted_columns. cbn [cols].
    rewrite repeat_strings. do 2 eexists. reflexivity.
  - intros k Hk. apply in_flat_map in Hk. destruct Hk as (k' & Hk' & Hr).
    apply repeat_spec in Hr. subst k'.
    apply unpivoted_not_key in Hk'. destruct Hk' as [Hc Hn].
    split; [assumption|].
    apply coordinate_columns_In in Hc. destruct Hc as (s & Hin & _).
    apply normalized_incl, rename_lower_In in Hin.
    destruct Hin as (k' & _ & ->). apply lower_idempotent.
Qed.

Lemma stage3_tables_count (datasets : list (string * string)) :
  length (sub_df_list (stage3 read_csv datasets))
  = length (filter is_locations_extracted
              (printed (stage3 read_csv datasets))).
Proof.
  induction datasets as [|[key value] rest IH]; [reflexivity|].
  rewrite stage3_cons. cbn [printed sub_df_list].
  rewrite filter_app, !length_app, IH, iteration_cases.
  destruct (read_csv value) as [df|]; cbn zeta; [|reflexivity].
  destruct (coordinate_columns (normalized df)); [reflexivity|].
  destruct (extract key (normalized df) _ _); reflexivity.
Qed.

Lemma long_tables_weaken (l : list DataFrame) :
  Forall (fun a =>
            exists names,
              long_table a names
              /\ forall k, In k names -> k <> "report_id" /\ lower k = k) l ->
  Forall (fun a => exists names, long_table a names) l.
Proof.
  apply Forall_impl. intros a (names & H & _). eauto.
Qed.

(** X14.  The last cell raises exactly when the run of stage 3 printed no
    "Locations Extracted": [pd.concat] has nothing to concatenate. *)
Theorem no_locations_no_combined_table (datasets : list (string * string)) :
  potential_locations_extracted (sub_df_list (stage3 read_csv datasets))
  = None
  <-> forall l,
        In l (printed (stage3 read_csv datasets)) ->
        is_locations_extracted l = false.
Proof.
  pose proof (stage3_tables_count datasets) as C.
  pose proof (long_tables_weaken _ (stage3_long_tables datasets)) as L.
  destruct (sub_df_list (stage3 read_csv datasets)) as [|first rest].
  - split; [|reflexivity]. intros _ l Hl.
    destruct (is_locations_extracted l) eqn:E; [|reflexivity].
    assert (Hf : In l (filter is_locations_extracted
                         (printed (stage3 read_csv datasets))))
      by (apply filter_In; auto).
    destruct (filter _ _); [contradiction | discriminate].
  - destruct (concat_long_tables_variable first rest L) as (final & E1 & E2).
    unfold potential_locations_extracted. rewrite E1, E2.
    split; [discriminate|]. intros H. exfalso.
    destruct (filter is_locations_extracted
                (printed (stage3 read_csv datasets))) as [|l ls] eqn:F;
      [discriminate|].
    assert (Hl : In l (l :: ls)) by now left.
    rewrite <- F in Hl. apply filter_In in Hl. destruct Hl as [Hl1 Hl2].
    rewrite (H l Hl1) in Hl2. discriminate.
Qed.

(** X15.  When the last cell returns, what it shows is a list of column
    names without repeats, each of them lower-case and none of them
    "report_id": exactly the names that are in the "variable" column of one
    of the collected tables. *)
Theorem potential_locations_listed (datasets : list (string * string))
  (vs : list scalar) :
  potential_locations_extracted (sub_df_list (stage3 read_csv datasets))
  = Some vs ->
  exists names,
    vs = map SStr names
    /\ NoDup names
    /\ (forall k, In k names -> k <> "report_id" /\ lower k = k)
    /\ (forall k,
          In k names <->
          exists a,
            In a (sub_df_list (stage3 read_csv datasets))
            /\ In (SStr k) (cells a "variable")).
Proof.
  pose proof (stage3_long_tables datasets) as L.
  pose proof (long_tables_weaken _ L) as L'.
  destruct (sub_df_list (stage3 read_csv datasets)) as [|first rest];
    [discriminate|].
  destruct (concat_long_tables_variable first rest L') as (final & E1 & E2).
  unfold potential_locations_extracted. rewrite E1, E2.
  intros [= <-]. unfold Series_unique. cbn [values].
  assert (A : exists all,
            flat_map (fun a => cells a "variable") (first :: rest)
            = map SStr all
            /\ (forall k, In k all -> k <> "report_id" /\ lower k = k)
            /\ (forall k,
                  In k all <->
                  exists a, In a (first :: rest)
                            /\ In (SStr k) (cells a "variable"))).
  { clear E1 E2 L'. induction L as [|a l (names & (r & c & E) & P) Hl IH].
    - exists []. split; [reflexivity|]. split; [intros k []|].
      intros k. split; [intros [] | intros (a & [] & _)].
    - destruct IH as (all & I1 & I2 & I3).
      assert (Ca : cells a "variable" = map SStr names).
      { unfold cells, get. rewrite E. reflexivity. }
      exists (names ++ all). cbn [flat_map]. rewrite I1, Ca, map_app.
      split; [reflexivity|]. split.
      + intros k Hk. apply in_app_or in Hk. destruct Hk; auto.
      + intros k. rewrite in_app_iff, I3. split.
        * intros [H|(a' & H1 & H2)].
          -- exists a. split; [now left|]. rewrite Ca. now apply in_map.
          -- exists a'. split; [now right | assumption].
        * intros (a' & [<-|H1] & H2).
          -- left. rewrite Ca in H2. apply in_map_iff in H2.
             destruct H2 as (k' & [= ->] & H2). assumption.
          -- right. eauto. }
  destruct A as (all & A1 & A2 & A3). cbn [flat_map] in A1. rewrite A1.
  exists (first_labels_from [] all).
  split; [apply (unique_strings [] all)|].
  split; [apply first_labels_NoDup|].
  split.
  - intros k Hk. apply first_labels_In in Hk. apply A2. tauto.
  - intros k. rewrite first_labels_In, A3. simpl. tauto.
Qed.

(** Every collected table has one cell per record in each of its three
    columns, and its "report_id" cells are the key of one of the
    datasets. *)
Lemma stage3_tables_cells (datasets : list (string * string)) :
  Forall (fun a =>
            (length (cells a "report_id") = n_rows a
             /\ length (cells a "variable") = n_rows a
             /\ length (cells a "value") = n_rows a)
            /\ Forall (fun v => exists key,
                         v = SStr key /\ In key (map fst datasets))
                      (cells a "report_id"))
         (sub_df_list (stage3 read_csv datasets)).
Proof.
  induction datasets as [|[key value] rest IH]; [constructor|].
  rewrite stage3_cons. cbn [sub_df_list]. apply Forall_app. split.
  - rewrite iteration_cases.
    destruct (read_csv value) as [df|]; cbn zeta; [|constructor].
    destruct (coordinate_columns (normalized df)) as [|k0 cc] eqn:CC;
      [constructor|].
    rewrite <- CC.
    destruct (extract key (normalized df) _ _) as [a|] eqn:EX;
      [|constructor].
    cbn [sub_df_list app]. constructor; [|constructor].
    apply extract_Some in EX. destruct EX as (_ & -> & N).
    destruct (melted_cells key (normalized df)
                (coordinate_columns (normalized df))
                (length (concat (map (cells (normalized df))
                                   (unpivoted (coordinate_columns
                                                 (normalized df)))))))
      as (C1 & C2 & C3).
    rewrite C1, C2, C3. cbn [n_rows].
    rewrite concat_repeat_length, repeat_length, variable_length.
    change (n_rows (normalized df)) with (n_rows df).
    split; [now rewrite N|].
    apply concat_repeat_Forall. apply Forall_forall.
    intros v Hv. apply repeat_spec in Hv. exists key. split; [assumption|].
    now left.
  - eapply Forall_impl; [|exact IH]. cbv beta.
    intros a [S R]. split; [assumption|].
    eapply Forall_impl; [|exact R]. cbv beta.
    intros v (k & -> & Hk). exists k. split; [reflexivity | now right].
Qed.

(** X16.  When stage 3 has collected a table, [pd.concat] returns: the
    combined table has the columns "report_id", "variable" and "value",
    one row for each record of each collected table with a cell in every
    column, and every "report_id" cell is the key of one of the
    datasets. *)
Theorem combined_table (datasets : list (string * string)) :
  sub_df_list (stage3 read_csv datasets) <> [] ->
  exists final,
    concat_frames (sub_df_list (stage3 read_csv datasets)) = Some final
    /\ columns final = ["report_id"; "variable"; "value"]
    /\ n_rows final
       = list_sum (map n_rows (sub_df_list (stage3 read_csv datasets)))
    /\ well_formed final
    /\ Forall (fun v => exists key,
                 v = SStr key /\ In key (map fst datasets))
              (cells final "report_id").
Proof.
  pose proof (long_tables_weaken _ (stage3_long_tables datasets)) as L.
  pose proof (stage3_tables_cells datasets) as C.
  destruct (sub_df_list (stage3 read_csv datasets)) as [|first rest];
    [congruence|].
  intros _. eexists. split; [now apply concat_long_tables|].
  split; [reflexivity|]. split; [reflexivity|].
  set (tables := first :: rest) in *. split.
  - unfold well_formed. cbn [cols n_rows].
    repeat constructor; cbn [snd size values];
      apply flat_map_length_sum; eapply Forall_impl; try exact C;
      cbv beta; tauto.
  - change (Forall (fun v => exists key,
                      v = SStr key /\ In key (map fst datasets))
              (flat_map (fun a => cells a "report_id") tables)).
    apply Forall_forall. intros v Hv. apply in_flat_map in Hv.
    destruct Hv as (a & Ha & Hv). rewrite Forall_forall in C.
    destruct (C a Ha) as [_ R]. rewrite Forall_forall in R. auto.
Qed.

End CombinedMore.

(** X14 on a run over one table without coordinates. *)
Lemma no_locations_no_combined_table_witness :
  potential_locations_extracted
    (sub_df_list (stage3 (serve "url" collar_without_coordinates)
                    [("CR000002", "url")]))
  = None.
Proof.
  apply no_locations_no_combined_table.
  intros l [<-|[]]. reflexivity.
Defined.

(** X15 on a run that reads Easting, Northing, Hole_ID twice. *)
Lemma potential_locations_listed_witness :
  exists names,
    [SStr "easting"; SStr "northing"] = map SStr names /\ NoDup names.
Proof.
  destruct (potential_locations_listed (serve "url" collar_with_hole_id)
              [("CR000001", "url"); ("CR000003", "url")]
              [SStr "easting"; SStr "northing"]) as (names & E & N & _).
  - vm_compute. reflexivity.
  - exists names. split; assumption.
Defined.

(** X16 on a run that reads Easting, Northing, Hole_ID twice. *)
Lemma combined_table_witness :
  exists final,
    concat_frames
      (sub_df_list (stage3 (serve "url" collar_with_hole_id)
                      [("CR000001", "url"); ("CR000003", "url")]))
    = Some final
    /\ columns final = ["report_id"; "variable"; "value"].
Proof.
  destruct (combined_table (serve "url" collar_with_hole_id)
              [("CR000001", "url"); ("CR000003", "url")])
    as (final & E & C & _).
  - vm_compute. discriminate.
  - exists final. split; assumption.
Defined.

(** ** The pages of the search *)

Section PagesMore.

Variable package_search : N -> N -> option (list report).

Lemma pages_loop_step (i : N) (response_list : list (list report)) :
  (i <? 3000)%N = true ->
  pages_loop package_search i response_list
  = match package_search (i + 1000)%N i with
    | Some results =>
        pages_loop package_search (i + 1000)%N (response_list ++ [results])
    | None => None
    end.
Proof.
  intros H. rewrite pages_loop_equation. now rewrite H.
Qed.

Lemma pages_loop_end (i : N) (response_list : list (list report)) :
  (i <? 3000)%N = false ->
  pages_loop package_search i response_list = Some response_list.
Proof.
  intros H. rewrite pages_loop_equation. now rewrite H.
Qed.

Lemma firstn_add {A : Type} (a b : nat) (l : list A) :
  firstn (a + b) l = firstn a l ++ firstn b (skipn a l).
Proof.
  revert l. induction a as [|a IH]; intros l; [reflexivity|].
  destruct l as [|x l]; simpl.
  - now rewrite firstn_nil.
  - now rewrite IH.
Qed.

(** X17.  The loop sends three requests, asking for 1000, 2000 and 3000
    rows from the offsets 0, 1000 and 2000.  The portal gives at most 1000
    reports for one request: then the pages do not overlap, and
    [report_list] is the first 3000 reports of the search, in order (all of
    them when there are no more than 3000). *)
Theorem report_list_pages (all : list report) :
  (forall rows start,
     package_search rows start
     = Some (firstn (N.to_nat (N.min rows 1000))
               (skipn (N.to_nat start) all))) ->
  report_list package_search = Some (firstn (N.to_nat 3000) all)
  /\ ((length all <= N.to_nat 3000)%nat ->
      report_list package_search = Some all).
Proof.
  intros H.
  assert (R : report_list package_search = Some (firstn (N.to_nat 3000) all)).
  { unfold report_list.
    rewrite pages_loop_step by reflexivity. rewrite H.
    change (0 + 1000)%N with 1000%N.
    rewrite pages_loop_step by reflexivity. rewrite H.
    change (1000 + 1000)%N with 2000%N.
    rewrite pages_loop_step by reflexivity. rewrite H.
    change (2000 + 1000)%N with 3000%N.
    rewrite pages_loop_end by reflexivity.
    change (N.min 1000 1000) with 1000%N.
    change (N.min 2000 1000) with 1000%N.
    change (N.min 3000 1000) with 1000%N.
    change (N.to_nat 0) with 0%nat.
    cbn [app concat skipn]. rewrite app_nil_r.
    set (n := N.to_nat 1000).
    replace (N.to_nat 2000) with (n + n)%nat by (subst n; lia).
    replace (N.to_nat 3000) with (n + (n + n))%nat by (subst n; lia).
    rewrite <- (skipn_skipn n n all).
    now rewrite !firstn_add. }
  split; [exact R|].
  intros Hl. rewrite R. now rewrite firstn_all2.
Qed.

End PagesMore.

(** X17 on a portal that holds two reports. *)
Lemma report_list_pages_witness :
  report_list
    (fun rows start =>
       Some (firstn (N.to_nat (N.min rows 1000))
               (skipn (N.to_nat start)
                  [report_of_2009; report_without_resources])))
  = Some (firstn (N.to_nat 3000) [report_of_2009; report_without_resources]).
Proof.
  refine (proj1 (report_list_pages _
                   [report_of_2009; report_without_resources] _)).
  intros rows start. reflexivity.
Defined.
